(** * v3io control plane resources: a shallow embedding of
    [v3io/controlplane/resources.py] and the properties of its
    envelope codec, write payload and resource workflows. *)

From Stdlib Require Import String Ascii List ZArith Bool Lia.
#[local] Set Warnings "-register-all".
Import ListNotations.
Local Open Scope string_scope.
Local Open Scope list_scope.

(** ** Python data *)

(** JSON-shaped Python values: what the control plane sends and receives. *)
Inductive value : Type :=
| VNone
| VBool (b : bool)
| VInt (z : Z)
| VStr (s : string)
| VList (l : list value)
| VDict (d : list (string * value)).

(** An argument that may be the [_missing] sentinel pydantic passes as
    the default of [GetterDict.get]. *)
Inductive pyobj : Type :=
| Missing
| Val (v : value).

(** Exceptions.  [External] is an exception raised by a collaborator
    (crud registry, transport), named by its class. *)
Inductive exn : Type :=
| KeyError (key : string)
| TypeError
| AttributeError
| ValidationError
| RuntimeError (msg : string)
| External (name : string).

Inductive Res (A : Type) : Type :=
| Ok (a : A)
| Err (e : exn).
Arguments Ok {A} a.
Arguments Err {A} e.

Definition res_bind {A B} (r : Res A) (k : A -> Res B) : Res B :=
  match r with
  | Ok a => k a
  | Err e => Err e
  end.

Declare Scope res_scope.
Delimit Scope res_scope with res.
Notation "x <- e ;; k" := (res_bind e (fun x => k))
  (at level 100, e at next level, right associativity) : res_scope.

(** *** Dictionaries: insertion-ordered association lists *)

Definition dict := list (string * value).

Fixpoint dict_get (k : string) (d : dict) : option value :=
  match d with
  | [] => None
  | (k', v) :: d' => if String.eqb k k' then Some v else dict_get k d'
  end.

Definition dict_has (k : string) (d : dict) : bool :=
  match dict_get k d with
  | Some _ => true
  | None => false
  end.

(** [d[k] = v]: overwrite in place or append. *)
Fixpoint dict_set (k : string) (v : value) (d : dict) : dict :=
  match d with
  | [] => [(k, v)]
  | (k', v') :: d' =>
      if String.eqb k k' then (k', v) :: d' else (k', v') :: dict_set k v d'
  end.

(** [d.update(items)] *)
Definition dict_update (d : dict) (items : list (string * value)) : dict :=
  fold_left (fun acc kv => dict_set (fst kv) (snd kv) acc) items d.

Definition dict_keys (d : dict) : list string := map fst d.

Definition in_strs (k : string) (l : list string) : bool :=
  existsb (String.eqb k) l.

(** No name occurs twice. *)
Fixpoint nodupb (l : list string) : bool :=
  match l with
  | [] => true
  | x :: l' => negb (in_strs x l') && nodupb l'
  end.

(** *** Operators on values, with a [str] on the left *)

(** [v[k]] *)
Definition py_getitem (v : value) (k : string) : Res value :=
  match v with
  | VDict d =>
      match dict_get k d with
      | Some x => Ok x
      | None => Err (KeyError k)
      end
  | _ => Err TypeError
  end.

(** [VStr s == v] *)
Definition str_eq (s : string) (v : value) : bool :=
  match v with
  | VStr s' => String.eqb s s'
  | _ => false
  end.

(** [k in v] *)
Definition py_contains (k : string) (v : value) : Res bool :=
  match v with
  | VDict d => Ok (dict_has k d)
  | VList l => Ok (existsb (str_eq k) l)
  | VStr s =>
      Ok (match String.index 0 k s with Some _ => true | None => false end)
  | _ => Err TypeError
  end.

(** [v.get(k, default)] *)
Definition py_dict_get (v : value) (k : string) (default : value) : Res value :=
  match v with
  | VDict d =>
      Ok (match dict_get k d with Some x => x | None => default end)
  | _ => Err AttributeError
  end.

Fixpoint chars (s : string) : list value :=
  match s with
  | EmptyString => []
  | String c s' => VStr (String c EmptyString) :: chars s'
  end.

(** [for x in v] *)
Definition py_iter (v : value) : Res (list value) :=
  match v with
  | VList l => Ok l
  | VDict d => Ok (map VStr (dict_keys d))
  | VStr s => Ok (chars s)
  | _ => Err TypeError
  end.

(** Truth value of [v]. *)
Definition truthy (v : value) : bool :=
  match v with
  | VNone => false
  | VBool b => b
  | VInt z => negb (Z.eqb z 0)
  | VStr s => negb (String.eqb s "")
  | VList l => match l with [] => false | _ => true end
  | VDict d => match d with [] => false | _ => true end
  end.

Definition is_none (v : value) : bool :=
  match v with
  | VNone => true
  | _ => false
  end.

(** ** The envelope codec: [_BaseResource.Config._BaseGetter] *)

Module _BaseGetter.

Local Open Scope res_scope.

(** [get(self, key, default)] over the wrapped object [_obj]. *)
Definition get (_obj : value) (key : string) (default : pyobj) : Res pyobj :=
  if in_strs key ["id"; "type"] then
    data <- py_getitem _obj "data" ;;
    v <- py_getitem data key ;;
    Ok (Val v)
  else if String.eqb key "relationships" then
    data <- py_getitem _obj "data" ;;
    v <- py_dict_get data "relationships" (VDict []) ;;
    Ok (Val v)
  else
    data <- py_getitem _obj "data" ;;
    attributes <- py_getitem data "attributes" ;;
    found <- py_contains key attributes ;;
    if found then
      v <- py_getitem attributes key ;;
      Ok (Val v)
    else Ok default.

End _BaseGetter.

(** An envelope with the given top-level members. *)
Definition envelope (data : dict) : value := VDict [("data", VDict data)].

(** ** Resource classes and their pydantic fields *)

Inductive Kind : Type := User | UserGroup | AccessKey | Job.

(** What the write payload needs of a field declaration: its name,
    whether [None] is an allowed value ([Optional] or a [None] default)
    and whether it is declared with [Field(..., exclude=True)]. *)
Record FieldDecl : Type := mkField {
  fname : string;
  allow_none : bool;
  fexclude : bool
}.

Definition plain (n : string) : FieldDecl := mkField n false false.
Definition optional (n : string) : FieldDecl := mkField n true false.

(** [_BaseResource]: [type], [id], [relationships]. *)
Definition base_fields : list FieldDecl :=
  [plain "type"; optional "id"; optional "relationships"].

(** [cls.__fields__], inherited fields first, then in declaration order. *)
Definition __fields__ (cls : Kind) : list FieldDecl :=
  base_fields ++
  match cls with
  | User =>
      [plain "username"; plain "first_name"; plain "last_name"; plain "email";
       plain "uid"; plain "created_at"; plain "data_access_mode";
       plain "authentication_scheme"; plain "send_password_on_creation";
       plain "assigned_policies"; plain "operational_status";
       plain "admin_status"; mkField "password" true true]
  | UserGroup =>
      [plain "name"; optional "description"; plain "data_access_mode";
       plain "gid"; plain "kind"; plain "assigned_policies";
       plain "system_provided"]
  | AccessKey =>
      [plain "tenant_id"; plain "ttl"; plain "created_at"; plain "updated_at";
       plain "group_ids"; plain "uid"; plain "gids"; plain "expires_at";
       plain "interface_kind"; plain "label"; plain "kind"; plain "planes"]
  | Job =>
      [plain "kind"; plain "params"; plain "max_total_execution_time";
       optional "max_worker_execution_time"; plain "delay"; plain "state";
       plain "result"; plain "created_at"; optional "on_success";
       optional "on_failure"; plain "updated_at"; plain "handler";
       plain "ctx_id"]
  end.

(** [cls.__exclude_fields__]: the fields declared with [exclude=True]. *)
Definition __exclude_fields__ (cls : Kind) : list string :=
  map fname (filter fexclude (__fields__ cls)).

(** [cls._as_resource_name()], the default of the [type] field. *)
Definition _as_resource_name (cls : Kind) : string :=
  match cls with
  | User => "user"
  | UserGroup => "user_group"
  | AccessKey => "access_key"
  | Job => "job"
  end.

(** A model instance: its class, [__dict__] and [__fields_set__]. *)
Record Instance : Type := mkInstance {
  cls : Kind;
  __dict__ : dict;
  __fields_set__ : list string
}.

(** ** pydantic's [BaseModel.dict], as [_fields_to_attributes] calls it *)

(** [_calculate_keys(include=None, exclude, exclude_unset)] *)
Definition _calculate_keys (self : Instance) (exclude : list string)
    (exclude_unset : bool) : list string :=
  let keys :=
    if exclude_unset then __fields_set__ self else dict_keys (__dict__ self) in
  filter (fun k => negb (in_strs k exclude)) keys.

(** [_iter(to_dict=True, exclude, exclude_unset, exclude_none)]: the
    class-level excludes are merged with the call's; the values are
    plain data, which [_get_value] returns as they are. *)
Definition _iter (self : Instance) (exclude : list string)
    (exclude_unset exclude_none : bool) : list (string * value) :=
  let exclude := __exclude_fields__ (cls self) ++ exclude in
  let allowed_keys := _calculate_keys self exclude exclude_unset in
  filter (fun kv =>
            negb (negb (in_strs (fst kv) allowed_keys)
                  || (exclude_none && is_none (snd kv))))
         (__dict__ self).

(** [self.dict(exclude=..., exclude_none=..., exclude_unset=...)] *)
Definition dict_ (self : Instance) (exclude : list string)
    (exclude_none exclude_unset : bool) : dict :=
  dict_update [] (_iter self exclude exclude_unset exclude_none).

Definition _fields_to_attributes (self : Instance) : dict :=
  dict_ self ["type"; "relationships"; "id"] true true.

(** ** The transport boundary *)

(** What reaches the transport: one constructor per operation of a crud
    handler ([cruds._BaseCrud]) and one for [APIClient.request_job]. *)
Inductive Request : Type :=
| ReqGet (crud : string) (resource_id : value) (params : dict)
| ReqList (crud : string) (filter_by : value)
| ReqCreate (crud : string) (attributes relationships : value)
| ReqUpdate (crud : string) (resource_id attributes relationships : value)
| ReqDelete (crud : string) (resource_id : value) (ignore_missing : bool)
| ReqGetCustom (crud : string) (custom : string)
| ReqJob (path : string) (timeout : Z).

(** What a coroutine of this module evaluates to: [None] or a model
    instance, by reference. *)
Inductive retval : Type :=
| RNone
| RObj (ref : nat).

(** [py_setitem v k x] is [v[k] = x]. *)
Definition py_setitem (v : value) (k : string) (x : value) : Res value :=
  match v with
  | VDict d => Ok (VDict (dict_set k x d))
  | _ => Err TypeError
  end.

(** [v.append(x)] *)
Definition py_append (v : value) (x : value) : Res value :=
  match v with
  | VList l => Ok (VList (l ++ [x]))
  | _ => Err AttributeError
  end.

Fixpoint res_map {A B} (f : A -> Res B) (l : list A) : Res (list B) :=
  match l with
  | [] => Ok []
  | x :: l' =>
      res_bind (f x) (fun y => res_bind (res_map f l') (fun ys => Ok (y :: ys)))
  end.

(** [[x for x in l if keep(x)]], where [keep] may raise. *)
Fixpoint res_filter {A} (keep : A -> Res bool) (l : list A) : Res (list A) :=
  match l with
  | [] => Ok []
  | x :: l' =>
      res_bind (keep x) (fun b =>
      res_bind (res_filter keep l') (fun xs => Ok (if b then x :: xs else xs)))
  end.

(** *** Reading the [user_groups] relationship *)

(** The linkages under [user_groups]: none when the relationship is
    absent, the list under its [data] otherwise. *)
Definition user_group_linkages (relationships : dict) : option (list value) :=
  match dict_get "user_groups" relationships with
  | None => Some []
  | Some (VDict user_groups) =>
      match dict_get "data" user_groups with
      | Some (VList l) => Some l
      | _ => None
      end
  | Some _ => None
  end.

(** The relationships with the given linkages under [user_groups]. *)
Definition set_linkages (relationships : dict) (l : list value) : dict :=
  match dict_get "user_groups" relationships with
  | Some (VDict user_groups) =>
      dict_set "user_groups" (VDict (dict_set "data" (VList l) user_groups))
        relationships
  | _ => dict_set "user_groups" (VDict [("data", VList l)]) relationships
  end.

(** The [id] of a linkage. *)
Definition linkage_id (group : value) : value :=
  match py_getitem group "id" with
  | Ok v => v
  | Err _ => VNone
  end.

(** What this module takes from its collaborators. *)
Class Collaborators : Type := {
  (** The server behind the [APIClient]: its state and its answer to
      each request. *)
  Srv : Type;
  respond : Request -> Srv -> Res value * Srv;
  (** pydantic's validator of a field of a class, applied to a value
      other than [None]: the validated value, or nothing when the value
      is rejected. *)
  validate : Kind -> string -> value -> option value;
  (** [constants.TenantManagementRoles.<member>.value] *)
  TenantManagementRoles_developer : value;
  TenantManagementRoles_application_read_only : value;
  TenantManagementRoles_data : value;
  TenantManagementRoles_application_admin : value;
  (** [constants.SessionPlanes.all()] *)
  SessionPlanes_all : value;
  (** A reading of [datetime.datetime.utcnow]. *)
  utcnow : value
}.

Section Resources.

Context `{Collaborators}.

(** *** Decoding: [from_orm] *)

(** The declared defaults, by class. *)
Definition defaults (cls : Kind) : dict :=
  [("type", VStr (_as_resource_name cls)); ("id", VNone);
   ("relationships", VNone)] ++
  match cls with
  | User =>
      [("username", VStr ""); ("first_name", VStr ""); ("last_name", VStr "");
       ("email", VStr ""); ("uid", VInt 0); ("created_at", VStr "");
       ("data_access_mode", VStr ""); ("authentication_scheme", VStr "");
       ("send_password_on_creation", VBool false);
       ("assigned_policies", VList []); ("operational_status", VStr "");
       ("admin_status", VStr ""); ("password", VNone)]
  | UserGroup =>
      [("name", VStr ""); ("description", VNone);
       ("data_access_mode", VStr "enabled"); ("gid", VInt 0);
       ("kind", VStr "local"); ("assigned_policies", VList []);
       ("system_provided", VBool false)]
  | AccessKey =>
      [("tenant_id", VStr ""); ("ttl", VInt 315360000);
       ("created_at", utcnow); ("updated_at", utcnow);
       ("group_ids", VList []); ("uid", VInt 0); ("gids", VList []);
       ("expires_at", VInt 0); ("interface_kind", VStr "web");
       ("label", VStr ""); ("kind", VStr "accessKey");
       ("planes", SessionPlanes_all)]
  | Job =>
      [("kind", VStr ""); ("params", VStr "");
       ("max_total_execution_time", VInt (3 * 60 * 60));
       ("max_worker_execution_time", VNone); ("delay", VInt 0);
       ("state", VStr "created"); ("result", VStr "");
       ("created_at", utcnow); ("on_success", VNone); ("on_failure", VNone);
       ("updated_at", utcnow); ("handler", VStr ""); ("ctx_id", VStr "")]
  end.

(** [field.get_default()] *)
Definition get_default (cls : Kind) (f : FieldDecl) : value :=
  match dict_get (fname f) (defaults cls) with
  | Some v => v
  | None => VNone
  end.

(** [field.validate(value, ...)]: [None] is accepted as it is by a
    field that allows it and rejected by one that does not. *)
Definition field_validate (cls : Kind) (f : FieldDecl) (v : value)
  : option value :=
  if is_none v then (if allow_none f then Some VNone else None)
  else validate cls (fname f) v.

(** The loop of [validate_model] over [model.__fields__], reading the
    input through the getter.  No field is required; the flag records
    whether a validation error was collected. *)
Fixpoint validate_fields (cls : Kind) (input_data : value)
    (fields : list FieldDecl) (values : dict) (fields_set : list string)
    (errors : bool) : Res (dict * list string * bool) :=
  match fields with
  | [] => Ok (values, fields_set, errors)
  | field :: fields' =>
      res_bind (_BaseGetter.get input_data (fname field) Missing) (fun got =>
      match got with
      | Missing =>
          validate_fields cls input_data fields'
            (dict_set (fname field) (get_default cls field) values)
            fields_set errors
      | Val v =>
          match field_validate cls field v with
          | Some v_ =>
              validate_fields cls input_data fields'
                (dict_set (fname field) v_ values)
                (fields_set ++ [fname field]) errors
          | None =>
              validate_fields cls input_data fields' values
                (fields_set ++ [fname field]) true
          end
      end)
  end.

(** The getter reports no extra keys, so nothing but the declared
    fields is kept. *)
Definition validate_model (cls : Kind) (input_data : value)
  : Res (dict * list string * bool) :=
  validate_fields cls input_data (__fields__ cls) [] [] false.

(** [cls.from_orm(obj)] *)
Definition from_orm (cls : Kind) (obj : value) : Res Instance :=
  res_bind (validate_model cls obj) (fun '(values, fields_set, errors) =>
  if errors then Err ValidationError
  else Ok (mkInstance cls values fields_set)).

(** What decoding leaves under a field: the validated value of what
    the getter supplies, or the default of the field. *)
Definition decoded (cls : Kind) (input_data : value) (f : FieldDecl) : value :=
  match _BaseGetter.get input_data (fname f) Missing with
  | Ok (Val v) =>
      match field_validate cls f v with
      | Some v_ => v_
      | None => VNone
      end
  | _ => get_default cls f
  end.

(** Whether the getter supplies a value under a name. *)
Definition supplied (input_data : value) (name : string) : bool :=
  match _BaseGetter.get input_data name Missing with
  | Ok (Val _) => true
  | _ => false
  end.

(** *** Coroutines: state passing over the heap of instances, the
    requests sent so far and the server *)

Record State : Type := mkState {
  heap : list Instance;
  log : list Request;
  srv : Srv
}.

Definition M (A : Type) : Type := State -> Res A * State.

Definition ret {A} (a : A) : M A := fun s => (Ok a, s).

Definition raise {A} (e : exn) : M A := fun s => (Err e, s).

Definition bind {A B} (m : M A) (k : A -> M B) : M B :=
  fun s =>
    match m s with
    | (Ok a, s') => k a s'
    | (Err e, s') => (Err e, s')
    end.

Definition lift {A} (r : Res A) : M A := fun s => (r, s).

Notation "x <~ e ;; k" := (bind e (fun x => k))
  (at level 100, e at next level, right associativity).

(** A new object on the heap. *)
Definition new (inst : Instance) : M nat :=
  fun s => (Ok (length (heap s)),
            mkState (heap s ++ [inst]) (log s) (srv s)).

(** The object behind a reference; references come from [new] and
    stay valid, the heap only grows. *)
Definition deref (ref : nat) : M Instance :=
  fun s =>
    match nth_error (heap s) ref with
    | Some inst => (Ok inst, s)
    | None => (Err (External "dangling reference"), s)
    end.

Fixpoint list_set {A} (l : list A) (n : nat) (x : A) : list A :=
  match l, n with
  | [], _ => []
  | _ :: l', O => x :: l'
  | y :: l', S n' => y :: list_set l' n' x
  end.

(** Replace the [__dict__] of the object at [ref], in place. *)
Definition set_dict (ref : nat) (d : dict) : M unit :=
  fun s =>
    match nth_error (heap s) ref with
    | Some inst =>
        (Ok tt,
         mkState (list_set (heap s) ref
                    (mkInstance (cls inst) d (__fields_set__ inst)))
                 (log s) (srv s))
    | None => (Err (External "dangling reference"), s)
    end.

(** [obj.name] for a field of the model. *)
Definition getattr (inst : Instance) (name : string) : Res value :=
  match dict_get name (__dict__ inst) with
  | Some v => Ok v
  | None => Err AttributeError
  end.

(** One request to the transport, recorded in the log. *)
Definition request (r : Request) : M value :=
  fun s =>
    let (answer, srv') := respond r (srv s) in
    (answer, mkState (heap s) (log s ++ [r]) srv').

(** *** The crud handlers *)

(** Modelled from the spec: [cruds._CrudFactory.create], absent from
    the sources.  The registry resolves the four resource type names
    to their handler, here named by its type, and fails with a
    [ConfigurationError] on any other name. *)
Definition _CrudFactory_create (crud_type : value) : M string :=
  match crud_type with
  | VStr t =>
      if in_strs t ["user"; "user_group"; "access_key"; "job"]
      then ret t
      else raise (External "ConfigurationError")
  | _ => raise (External "ConfigurationError")
  end.

Definition get_crud (crud_type : value) : M string :=
  _CrudFactory_create crud_type.

(** Modelled from the spec: the operations of [cruds._BaseCrud],
    absent from the sources.  Each one is a single request to the
    transport and evaluates to its answer. *)
Definition crud_get (crud : string) (resource_id : value) (params : dict)
  : M value := request (ReqGet crud resource_id params).

Definition crud_list (crud : string) (filter_by : value) : M value :=
  request (ReqList crud filter_by).

Definition crud_create (crud : string) (attributes relationships : value)
  : M value := request (ReqCreate crud attributes relationships).

Definition crud_update (crud : string)
    (resource_id attributes relationships : value) : M value :=
  request (ReqUpdate crud resource_id attributes relationships).

Definition crud_delete (crud : string) (resource_id : value)
    (ignore_missing : bool) : M value :=
  request (ReqDelete crud resource_id ignore_missing).

Definition crud_get_custom (crud : string) (custom : string) : M value :=
  request (ReqGetCustom crud custom).

(** Modelled from the spec: [APIClient.request_job], absent from the
    sources: the job is polled by the transport within [timeout]
    seconds. *)
Definition request_job (path : string) (timeout : Z) : M value :=
  request (ReqJob path timeout).

(** *** [_BaseResource] *)

(** [params = {}; if include: params["include"] = ",".join(include)] *)
Definition include_params (include : list string) : dict :=
  match include with
  | [] => []
  | _ => [("include", VStr (String.concat "," include))]
  end.

(** [get(cls, http_client, resource_id, include=None)] *)
Definition _BaseResource_get (cls : Kind) (resource_id : value)
    (include : list string) : M nat :=
  let params := include_params include in
  crud <~ get_crud (VStr (_as_resource_name cls)) ;;
  resource <~ crud_get crud resource_id params ;;
  inst <~ lift (from_orm cls resource) ;;
  new inst.

Fixpoint from_orm_each (cls : Kind) (items : list value) : M (list nat) :=
  match items with
  | [] => ret []
  | item :: items' =>
      inst <~ lift (from_orm cls (VDict [("data", item)])) ;;
      ref <~ new inst ;;
      refs <~ from_orm_each cls items' ;;
      ret (ref :: refs)
  end.

(** [list(cls, http_client, filter_by=None)] *)
Definition _BaseResource_list (cls : Kind) (filter_by : value)
  : M (list nat) :=
  crud <~ get_crud (VStr (_as_resource_name cls)) ;;
  list_resource <~ crud_list crud filter_by ;;
  items <~ lift (res_bind (py_getitem list_resource "data") py_iter) ;;
  from_orm_each cls items.

(** [update(self, http_client, relationships=None)].  The body ends
    after the overlay, without a [return]. *)
Definition _BaseResource_update (self : nat) (relationships : value)
  : M retval :=
  this <~ deref self ;;
  type <~ lift (getattr this "type") ;;
  crud <~ get_crud type ;;
  id <~ lift (getattr this "id") ;;
  _ <~ crud_update crud id (VDict (_fields_to_attributes this))
         relationships ;;
  updated_resource <~ _BaseResource_get (cls this) id [] ;;
  updated <~ deref updated_resource ;;
  this <~ deref self ;;
  _ <~ set_dict self (dict_update (__dict__ this) (__dict__ updated)) ;;
  ret RNone.

(** [delete(self, http_client, ignore_missing=False)] *)
Definition _BaseResource_delete (self : nat) (ignore_missing : bool)
  : M retval :=
  this <~ deref self ;;
  type <~ lift (getattr this "type") ;;
  crud <~ get_crud type ;;
  id <~ lift (getattr this "id") ;;
  _ <~ crud_delete crud id ignore_missing ;;
  ret RNone.

(** *** [Job]: the overrides

    Both take [http_client] and keyword arguments, which they ignore. *)

Definition Job_delete (self : nat) : M retval :=
  raise (RuntimeError "This resource is not delete-able").

Definition Job_update (self : nat) : M retval :=
  raise (RuntimeError "This resource is not update-able").

(** [obj.update(http_client, relationships)] and
    [obj.delete(http_client, ignore_missing)], resolved on the class
    of the object. *)
Definition update (self : nat) (relationships : value) : M retval :=
  this <~ deref self ;;
  match cls this with
  | Job => Job_update self
  | _ => _BaseResource_update self relationships
  end.

Definition delete (self : nat) (ignore_missing : bool) : M retval :=
  this <~ deref self ;;
  match cls this with
  | Job => Job_delete self
  | _ => _BaseResource_delete self ignore_missing
  end.

(** *** [User] *)

(** [create(cls, http_client, username, password, email, first_name,
    last_name, assigned_policies=None)].  The handler is called
    without [relationships]: it receives [None] for them. *)
Definition User_create (username password email first_name last_name : string)
    (assigned_policies : value) : M nat :=
  let assigned_policies :=
    if truthy assigned_policies then assigned_policies
    else VList [TenantManagementRoles_developer;
             TenantManagementRoles_application_read_only] in
  crud <~ get_crud (VStr (_as_resource_name User)) ;;
  created_resource <~
    crud_create crud
      (VDict [("username", VStr username);
              ("first_name", VStr first_name);
              ("last_name", VStr last_name);
              ("email", VStr email);
              ("password", VStr password);
              ("assigned_policies", assigned_policies)])
      VNone ;;
  inst <~ lift (from_orm User created_resource) ;;
  new inst.

(** [self(cls, http_client)] *)
Definition User_self : M nat :=
  crud <~ get_crud (VStr (_as_resource_name User)) ;;
  user <~ crud_get_custom crud "self" ;;
  inst <~ lift (from_orm User user) ;;
  new inst.

(** [user.relationships[...] = ...] and the like change the mapping
    that [user.__dict__] holds under [relationships], in place. *)
Definition set_relationships (user : nat) (relationships : value) : M unit :=
  this <~ deref user ;;
  set_dict user (dict_set "relationships" relationships (__dict__ this)).

(** [[group["id"] for group in user.relationships["user_groups"]["data"]]] *)
Definition group_ids (relationships : value) : Res (list value) :=
  res_bind (py_getitem relationships "user_groups") (fun user_groups =>
  res_bind (py_getitem user_groups "data") (fun data_ =>
  res_bind (py_iter data_) (fun groups =>
  res_map (fun group => py_getitem group "id") groups))).

(** [user.relationships["user_groups"]["data"].append(linkage)] *)
Definition append_group (relationships : value) (linkage : value)
  : Res value :=
  res_bind (py_getitem relationships "user_groups") (fun user_groups =>
  res_bind (py_getitem user_groups "data") (fun data_ =>
  res_bind (py_append data_ linkage) (fun data' =>
  res_bind (py_setitem user_groups "data" data') (fun user_groups' =>
  py_setitem relationships "user_groups" user_groups')))).

(** [add_to_group(self, http_client, group_id)] *)
Definition User_add_to_group (self : nat) (group_id : string) : M retval :=
  this <~ deref self ;;
  id <~ lift (getattr this "id") ;;
  user <~ _BaseResource_get (cls this) id ["user_groups"] ;;
  fetched <~ deref user ;;
  relationships <~ lift (getattr fetched "relationships") ;;
  present <~ lift (py_contains "user_groups" relationships) ;;
  relationships <~
    (if present then ret relationships
     else
       relationships' <~
         lift (py_setitem relationships "user_groups"
                 (VDict [("data", VList [])])) ;;
       _ <~ set_relationships user relationships' ;;
       ret relationships') ;;
  ids <~ lift (group_ids relationships) ;;
  if negb (existsb (str_eq group_id) ids) then
    relationships' <~
      lift (append_group relationships
              (VDict [("id", VStr group_id); ("type", VStr "user_group")])) ;;
    _ <~ set_relationships user relationships' ;;
    _ <~ update user relationships' ;;
    ret RNone
  else ret RNone.

(** [[group for group in ...["data"] if group["id"] != group_id]] and
    its assignment to [user.relationships["user_groups"]["data"]]. *)
Definition without_group (relationships : value) (group_id : string)
  : Res value :=
  res_bind (py_getitem relationships "user_groups") (fun user_groups =>
  res_bind (py_getitem user_groups "data") (fun data_ =>
  res_bind (py_iter data_) (fun groups =>
  res_bind (res_filter
              (fun group =>
                 res_bind (py_getitem group "id") (fun id =>
                 Ok (negb (str_eq group_id id))))
              groups) (fun kept =>
  res_bind (py_setitem user_groups "data" (VList kept)) (fun user_groups' =>
  py_setitem relationships "user_groups" user_groups'))))).

(** [remove_from_group(self, http_client, group_id)] *)
Definition User_remove_from_group (self : nat) (group_id : string)
  : M retval :=
  this <~ deref self ;;
  id <~ lift (getattr this "id") ;;
  user <~ _BaseResource_get (cls this) id ["user_groups"] ;;
  fetched <~ deref user ;;
  relationships <~ lift (getattr fetched "relationships") ;;
  present <~ lift (py_contains "user_groups" relationships) ;;
  if present then
    relationships' <~ lift (without_group relationships group_id) ;;
    _ <~ set_relationships user relationships' ;;
    _ <~ update user relationships' ;;
    ret RNone
  else ret RNone.

(** *** [UserGroup] *)

(** [create(cls, http_client, name, assigned_policies=None,
    description=None, gid=None, user_ids=None)] *)
Definition UserGroup_create (name : string)
    (assigned_policies description gid user_ids : value) : M nat :=
  let assigned_policies :=
    if negb (truthy assigned_policies)
    then VList [TenantManagementRoles_data;
                 TenantManagementRoles_application_admin]
    else assigned_policies in
  relationships <~
    (if truthy user_ids then
       ids <~ lift (py_iter user_ids) ;;
       ret [("users",
             VDict [("data",
                     VList (map (fun user_id =>
                                   VDict [("id", user_id);
                                          ("type", VStr "user")])
                                ids))])]
     else ret []) ;;
  crud <~ get_crud (VStr (_as_resource_name UserGroup)) ;;
  created_resource <~
    crud_create crud
      (VDict [("name", VStr name);
              ("description", description);
              ("gid", gid);
              ("assigned_policies", assigned_policies)])
      (VDict relationships) ;;
  inst <~ lift (from_orm UserGroup created_resource) ;;
  new inst.

(** *** [AccessKey] *)

(** [create(cls, http_client, planes=SessionPlanes.all(), label=None)];
    [planes] is [None] here when the caller gives no planes. *)
Definition AccessKey_create (planes : option value) (label : value)
  : M nat :=
  let planes :=
    match planes with
    | Some p => p
    | None => SessionPlanes_all
    end in
  crud <~ get_crud (VStr (_as_resource_name AccessKey)) ;;
  created_resource <~
    crud_create crud (VDict [("planes", planes); ("label", label)]) VNone ;;
  inst <~ lift (from_orm AccessKey created_resource) ;;
  new inst.

(** *** [Configurations] *)

(** [reload(cls, http_client, config_type)], on the [value] of the
    [ConfigTypes] member. *)
Definition Configurations_reload (config_type : string) : M retval :=
  _ <~ request_job ("configurations/" ++ config_type ++ "/reloads")
         (60 * 15) ;;
  ret RNone.

(** The reload as the specification words it, for comparison: the
    caller passes the bound in seconds. *)
Definition Configurations_reload_as_specified (config_type : string)
    (timeout : Z) : M retval :=
  _ <~ request_job ("configurations/" ++ config_type ++ "/reloads") timeout ;;
  ret RNone.

End Resources.

(** ** A control plane in memory

    A small server to run the workflows on: resources are kept as the
    [data] member of their envelope; an update merges the attributes
    and the relationships it is given; a job takes [job_seconds] to
    reach a terminal state. *)

Record Plane : Type := mkPlane {
  resources : list dict;
  job_seconds : Z
}.

Definition id_eqb (a b : value) : bool :=
  match a, b with
  | VInt x, VInt y => Z.eqb x y
  | VStr x, VStr y => String.eqb x y
  | _, _ => false
  end.

Definition has_type (crud : string) (d : dict) : bool :=
  match dict_get "type" d with
  | Some t => str_eq crud t
  | None => false
  end.

Definition is_resource (crud : string) (resource_id : value) (d : dict) : bool :=
  has_type crud d &&
  match dict_get "id" d with
  | Some i => id_eqb resource_id i
  | None => false
  end.

Definition merged (old new : option value) : value :=
  match old, new with
  | Some (VDict o), Some (VDict n) => VDict (dict_update o n)
  | _, Some (VDict n) => VDict n
  | Some o, _ => o
  | None, _ => VDict []
  end.

Definition patch (attributes relationships : value) (d : dict) : dict :=
  dict_set "relationships"
    (merged (dict_get "relationships" d) (Some relationships))
    (dict_set "attributes"
       (merged (dict_get "attributes" d) (Some attributes)) d).

Definition plane_respond (r : Request) (p : Plane) : Res value * Plane :=
  match r with
  | ReqGet crud resource_id _ =>
      match find (is_resource crud resource_id) (resources p) with
      | Some d => (Ok (envelope d), p)
      | None => (Err (External "NotFoundError"), p)
      end
  | ReqList crud _ =>
      (Ok (VDict [("data", VList (map VDict (filter (has_type crud) (resources p))))]), p)
  | ReqCreate crud attributes relationships =>
      let d := [("type", VStr crud);
                ("id", VInt (Z.of_nat (length (resources p))));
                ("attributes", attributes);
                ("relationships", merged None (Some relationships))] in
      (Ok (envelope d), mkPlane (resources p ++ [d]) (job_seconds p))
  | ReqUpdate crud resource_id attributes relationships =>
      if existsb (is_resource crud resource_id) (resources p) then
        (Ok VNone,
         mkPlane (map (fun d => if is_resource crud resource_id d
                                then patch attributes relationships d else d)
                      (resources p))
                 (job_seconds p))
      else (Err (External "NotFoundError"), p)
  | ReqDelete crud resource_id ignore_missing =>
      if existsb (is_resource crud resource_id) (resources p) || ignore_missing
      then
        (Ok VNone,
         mkPlane (filter (fun d => negb (is_resource crud resource_id d))
                         (resources p))
                 (job_seconds p))
      else (Err (External "NotFoundError"), p)
  | ReqGetCustom crud _ =>
      match find (has_type crud) (resources p) with
      | Some d => (Ok (envelope d), p)
      | None => (Err (External "NotFoundError"), p)
      end
  | ReqJob _ timeout =>
      if Z.leb (job_seconds p) timeout
      then (Ok (envelope [("type", VStr "job"); ("id", VInt 0);
                          ("attributes", VDict [("state", VStr "completed")])]), p)
      else (Err (External "TimeoutError"), p)
  end.

(** The collaborators of the runs below: the server in memory,
    validators that take every value as it is (what pydantic does with
    a value that has the type of its field), and sample constants. *)
Definition in_memory : Collaborators := {|
  Srv := Plane;
  respond := plane_respond;
  validate := fun _ _ v => Some v;
  TenantManagementRoles_developer := VStr "developer";
  TenantManagementRoles_application_read_only := VStr "application_read_only";
  TenantManagementRoles_data := VStr "data";
  TenantManagementRoles_application_admin := VStr "application_admin";
  SessionPlanes_all := VList [VStr "control"; VStr "data"];
  utcnow := VStr "2024-01-01T00:00:00"
|}.

(** The state of a run that starts on the given server. *)
Definition start (p : Plane) : @State in_memory := @mkState in_memory [] [] p.

(** ** Sample data for the runs *)

(** A user as the server keeps it, member of no group. *)
Definition alice : dict :=
  [("type", VStr "user"); ("id", VStr "u1");
   ("attributes", VDict [("username", VStr "alice"); ("email", VStr "a@x.io")]);
   ("relationships", VDict [])].

(** The same user, member of the group [g1]. *)
Definition alice_in_g1 : dict :=
  [("type", VStr "user"); ("id", VStr "u1");
   ("attributes", VDict [("username", VStr "alice"); ("email", VStr "a@x.io")]);
   ("relationships",
    VDict [("user_groups",
            VDict [("data",
                    VList [VDict [("id", VStr "g1");
                                  ("type", VStr "user_group")]])])])].

(** The same user with the linkage of [g1] listed twice. *)
Definition alice_twice_in_g1 : dict :=
  [("type", VStr "user"); ("id", VStr "u1");
   ("attributes", VDict [("username", VStr "alice"); ("email", VStr "a@x.io")]);
   ("relationships",
    VDict [("user_groups",
            VDict [("data",
                    VList [VDict [("id", VStr "g1"); ("type", VStr "user_group")];
                           VDict [("id", VStr "g1");
                                  ("type", VStr "user_group")]])])])].

(** How many linkages of a stored user carry the id of a group. *)
Definition linked_times (group_id : string) (resource : dict) : option nat :=
  match dict_get "relationships" resource with
  | Some (VDict relationships) =>
      option_map
        (fun l => length (filter (fun group => str_eq group_id (linkage_id group)) l))
        (user_group_linkages relationships)
  | _ => None
  end.

(** The caller's object for that user, with a first name set locally. *)
Definition caller : Instance :=
  mkInstance User
    [("type", VStr "user"); ("id", VStr "u1"); ("relationships", VDict []);
     ("username", VStr "alice"); ("first_name", VStr "Alice")]
    ["type"; "id"; "relationships"; "username"; "first_name"].

Definition on_plane (resources : list dict) : @State in_memory :=
  @mkState in_memory [caller] [] (mkPlane resources 5).

(** ** What a coroutine does to the heap *)

Section Frames.

Context `{Collaborators}.

(** The coroutine leaves the object at [n] as it is and drops no
    object. *)
Definition keeps (n : nat) {A : Type} (m : M A) : Prop :=
  forall s,
    n < length (heap s) ->
    nth_error (heap (snd (m s))) n = nth_error (heap s) n /\
    length (heap s) <= length (heap (snd (m s))).

(** The coroutine makes one new object, which it returns, when it
    succeeds, and none when it fails; the other objects stay. *)
Definition allocates_on_success (m : M nat) : Prop :=
  forall s,
    match m s with
    | (Ok ref, s') =>
        ref = length (heap s) /\ exists inst, heap s' = heap s ++ [inst]
    | (Err _, s') => heap s' = heap s
    end.

(** The coroutine only adds to the log of requests. *)
Definition appends {A : Type} (m : M A) : Prop :=
  forall s, exists rest, log (snd (m s)) = log s ++ rest.

End Frames.

(** * Properties *)

Lemma dict_get_has k d :
  dict_has k d = true -> exists v, dict_get k d = Some v.
Proof.
  unfold dict_has. destruct (dict_get k d) as [v|]; [eauto | discriminate].
Qed.

Lemma dict_has_false k d : dict_has k d = false -> dict_get k d = None.
Proof.
  unfold dict_has. destruct (dict_get k d); [discriminate | reflexivity].
Qed.

(** C1. Decoding precedence of the envelope codec: [id] and [type] come
    from the top-level identity members of [data] (a missing member is a
    [KeyError]); [relationships] comes from the relationships bag and is
    the empty mapping when absent; any other key comes from the
    [attributes] mapping, and the supplied default is returned when the
    key is missing there.  In particular an [id] stored in [attributes]
    never shadows the top-level one. *)
Theorem getter_precedence :
  forall (o data : dict) (key : string) (default : pyobj),
    dict_get "data" o = Some (VDict data) ->
    (_BaseGetter.get (VDict o) "id" default =
       match dict_get "id" data with
       | Some v => Ok (Val v)
       | None => Err (KeyError "id")
       end) /\
    (_BaseGetter.get (VDict o) "type" default =
       match dict_get "type" data with
       | Some v => Ok (Val v)
       | None => Err (KeyError "type")
       end) /\
    (_BaseGetter.get (VDict o) "relationships" default =
       Ok (Val match dict_get "relationships" data with
               | Some v => v
               | None => VDict []
               end)) /\
    (forall attrs : dict,
       dict_get "attributes" data = Some (VDict attrs) ->
       (in_strs key ["id"; "type"; "relationships"] = false ->
        _BaseGetter.get (VDict o) key default =
          match dict_get key attrs with
          | Some v => Ok (Val v)
          | None => Ok default
          end) /\
       (forall top shadow,
          dict_get "id" data = Some top ->
          dict_get "id" attrs = Some shadow ->
          _BaseGetter.get (VDict o) "id" default = Ok (Val top))).
Proof.
  intros o data key default Hdata.
  unfold _BaseGetter.get; cbn [in_strs existsb String.eqb Ascii.eqb Bool.eqb orb py_getitem res_bind].
  rewrite Hdata; cbn [res_bind py_getitem py_dict_get].
  repeat split.
  - destruct (dict_get "id" data); reflexivity.
  - destruct (dict_get "type" data); reflexivity.
  - intros Hkey. rewrite H; cbn [res_bind py_contains].
    unfold in_strs in Hkey; cbn [existsb] in Hkey.
    destruct (String.eqb key "id"); [discriminate|].
    destruct (String.eqb key "type"); [discriminate|].
    destruct (String.eqb key "relationships"); [discriminate|].
    cbn [orb]. unfold dict_has.
    destruct (dict_get key attrs) eqn:E; cbn [res_bind py_getitem]; [rewrite E|]; reflexivity.
  - intros top shadow Htop _. rewrite Htop. reflexivity.
Qed.

Lemma getter_precedence_witness :
  _BaseGetter.get
    (envelope [("type", VStr "user"); ("id", VInt 7);
               ("attributes", VDict [("id", VInt 99); ("username", VStr "alice")])])
    "id" Missing = Ok (Val (VInt 7)).
Proof.
  refine (proj2 (proj2 (proj2 (proj2 (getter_precedence
    [("data", VDict [("type", VStr "user"); ("id", VInt 7);
       ("attributes", VDict [("id", VInt 99); ("username", VStr "alice")])])]
    _ "username" Missing eq_refl))) _ eq_refl) (VInt 7) (VInt 99) eq_refl eq_refl).
Defined.

(** *** Facts about dictionaries *)

Lemma in_strs_In k l : in_strs k l = true <-> In k l.
Proof.
  unfold in_strs. rewrite existsb_exists. split.
  - intros [x [Hx He]]. apply String.eqb_eq in He. now subst.
  - intros H. exists k. split; [assumption | apply String.eqb_refl].
Qed.

Lemma in_strs_app k l1 l2 :
  in_strs k (l1 ++ l2) = in_strs k l1 || in_strs k l2.
Proof. unfold in_strs. apply existsb_app. Qed.

Lemma dict_get_In k v d : dict_get k d = Some v -> In (k, v) d.
Proof.
  induction d as [|[k' v'] d IH]; cbn; [discriminate|].
  destruct (String.eqb_spec k k') as [->|Hne].
  - intros [= ->]. now left.
  - intros H. right. auto.
Qed.

Lemma dict_set_In k v k0 v0 d :
  In (k, v) (dict_set k0 v0 d) -> (k, v) = (k0, v0) \/ In (k, v) d.
Proof.
  induction d as [|[k' v'] d IH]; cbn.
  - intros [H|[]]. left. now symmetry.
  - destruct (String.eqb_spec k0 k') as [->|Hne]; cbn.
    + intros [H|H]; [left; now symmetry | right; now right].
    + intros [H|H]; [right; now left|].
      destruct (IH H) as [H'|H']; [now left | right; now right].
Qed.

Lemma dict_update_In k v items : forall d,
  In (k, v) (dict_update d items) -> In (k, v) items \/ In (k, v) d.
Proof.
  unfold dict_update.
  induction items as [|[k0 v0] items IH]; cbn; intros d H.
  - now right.
  - destruct (IH _ H) as [H'|H']; [left; now right|].
    destruct (dict_set_In _ _ _ _ _ H') as [E|E]; [left; left; now symmetry | now right].
Qed.

(** Every entry of the payload is an entry of [__dict__] that passed
    the filter of [_iter]. *)
Lemma payload_entry self k v :
  dict_get k (_fields_to_attributes self) = Some v ->
  In (k, v) (__dict__ self) /\
  in_strs k (__fields_set__ self) = true /\
  in_strs k (__exclude_fields__ (cls self) ++ ["type"; "relationships"; "id"]) = false /\
  is_none v = false.
Proof.
  intros H. apply dict_get_In in H.
  unfold _fields_to_attributes, dict_ in H.
  apply dict_update_In in H. destruct H as [H|[]].
  unfold _iter in H. apply filter_In in H. destruct H as [Hin Hf].
  cbn [fst snd andb] in Hf.
  apply negb_true_iff, orb_false_iff in Hf. destruct Hf as [Ha Hn].
  apply negb_false_iff in Ha. unfold _calculate_keys in Ha.
  apply in_strs_In, filter_In in Ha. destruct Ha as [Hs He].
  apply negb_true_iff in He. apply in_strs_In in Hs.
  repeat split; assumption.
Qed.

Lemma payload_omits self k :
  in_strs k (__exclude_fields__ (cls self) ++ ["type"; "relationships"; "id"]) = true ->
  dict_get k (_fields_to_attributes self) = None.
Proof.
  intros Hk. destruct (dict_get k (_fields_to_attributes self)) as [v|] eqn:E;
    [|reflexivity].
  apply payload_entry in E. destruct E as (_ & _ & E & _). congruence.
Qed.

(** C2. The write payload never holds [type], [relationships] or [id],
    and each of its entries is a field of the instance that is set and
    whose value is not [None]: unset fields and [None] values are left
    out. *)
Theorem payload_excludes_identity_unset_none :
  forall (self : Instance),
    dict_has "type" (_fields_to_attributes self) = false /\
    dict_has "relationships" (_fields_to_attributes self) = false /\
    dict_has "id" (_fields_to_attributes self) = false /\
    (forall k, in_strs k (__fields_set__ self) = false ->
               dict_has k (_fields_to_attributes self) = false) /\
    (forall k, ~ In (k, VNone) (_fields_to_attributes self)) /\
    (forall k v, dict_get k (_fields_to_attributes self) = Some v ->
                 In (k, v) (__dict__ self) /\ v <> VNone).
Proof.
  intros self.
  assert (Hex : forall k, in_strs k ["type"; "relationships"; "id"] = true ->
                dict_has k (_fields_to_attributes self) = false).
  { intros k Hk. unfold dict_has. rewrite payload_omits; [reflexivity|].
    rewrite in_strs_app, Hk. apply orb_true_r. }
  repeat split.
  - apply Hex. reflexivity.
  - apply Hex. reflexivity.
  - apply Hex. reflexivity.
  - intros k Hk. unfold dict_has.
    destruct (dict_get k (_fields_to_attributes self)) as [v|] eqn:E; [|reflexivity].
    apply payload_entry in E. destruct E as (_ & E & _). congruence.
  - intros k Hin. unfold _fields_to_attributes, dict_ in Hin.
    apply dict_update_In in Hin. destruct Hin as [Hin|[]].
    unfold _iter in Hin. apply filter_In in Hin. destruct Hin as [_ Hf].
    cbn in Hf. rewrite orb_true_r in Hf. discriminate.
  - apply payload_entry in H. tauto.
  - apply payload_entry in H. destruct H as (_ & _ & _ & H). now intros ->.
Qed.

(** C10. The write payload of a [User] never holds [password], whatever
    the instance stores for it and whether or not it is set. *)
Theorem user_payload_omits_password :
  forall (d : dict) (fs : list string),
    dict_has "password" (_fields_to_attributes (mkInstance User d fs)) = false.
Proof.
  intros d fs. unfold dict_has. rewrite payload_omits; reflexivity.
Qed.



(** *** Decoding *)

Lemma nodupb_NoDup l : nodupb l = true -> NoDup l.
Proof.
  induction l as [|x l IH]; cbn; [constructor|].
  intros H. apply andb_true_iff in H. destruct H as [Hx Hl].
  constructor; [|auto].
  intros Hin. apply in_strs_In in Hin. rewrite Hin in Hx. discriminate.
Qed.

Lemma fields_nodup cls : NoDup (map fname (__fields__ cls)).
Proof. apply nodupb_NoDup. destruct cls; reflexivity. Qed.

Lemma dict_set_fresh k v d :
  ~ In k (dict_keys d) -> dict_set k v d = d ++ [(k, v)].
Proof.
  induction d as [|[k' v'] d IH]; cbn; [reflexivity|].
  intros Hn. destruct (String.eqb_spec k k') as [->|Hne].
  - exfalso. apply Hn. now left.
  - f_equal. apply IH. intros Hin. apply Hn. now right.
Qed.

Lemma dict_update_fresh items : forall d,
  NoDup (dict_keys (d ++ items)) -> dict_update d items = d ++ items.
Proof.
  unfold dict_update, dict_keys.
  induction items as [|[k v] items IH]; cbn; intros d Hnd.
  - now rewrite app_nil_r.
  - assert (Hk : ~ In k (dict_keys d)).
    { rewrite map_app in Hnd. cbn in Hnd.
      apply NoDup_remove_2 in Hnd. intros Hin. apply Hnd.
      apply in_or_app. now left. }
    rewrite (dict_set_fresh _ _ _ Hk), IH.
    + now rewrite <- app_assoc.
    + now rewrite <- app_assoc.
Qed.

Lemma dict_get_iff_In k v d :
  NoDup (dict_keys d) -> (dict_get k d = Some v <-> In (k, v) d).
Proof.
  intros Hnd. split; [apply dict_get_In|].
  induction d as [|[k' v'] d IH]; cbn; [intros []|].
  inversion Hnd as [|? ? Hk Hd]; subst.
  intros [E|Hin].
  - inversion E; subst. now rewrite String.eqb_refl.
  - destruct (String.eqb_spec k k') as [->|Hne]; [|auto].
    exfalso. apply Hk. change k' with (fst (k', v)). now apply in_map.
Qed.

Lemma NoDup_keys_filter (P : string * value -> bool) d :
  NoDup (dict_keys d) -> NoDup (dict_keys (filter P d)).
Proof.
  unfold dict_keys. induction d as [|[k v] d IH]; cbn; [constructor|].
  intros Hnd. inversion Hnd as [|? ? Hk Hd]; subst.
  destruct (P (k, v)); cbn; [|auto].
  constructor; [|auto].
  intros Hin. apply Hk. apply in_map_iff in Hin.
  destruct Hin as [[k' v'] [E Hin]]. apply filter_In in Hin.
  cbn in E; subst. change k with (fst (k, v')). apply in_map. tauto.
Qed.

Section Decoding.

Context `{Collaborators}.

Lemma validate_fields_ok cls env : forall fields values fs errors values' fs',
  validate_fields cls env fields values fs errors = Ok (values', fs', false) ->
  errors = false /\
  values' = dict_update values (map (fun f => (fname f, decoded cls env f)) fields) /\
  fs' = fs ++ filter (supplied env) (map fname fields) /\
  (forall f raw, In f fields ->
     _BaseGetter.get env (fname f) Missing = Ok (Val raw) ->
     field_validate cls f raw = Some (decoded cls env f)).
Proof.
  induction fields as [|f fields IH]; cbn [validate_fields]; intros values fs errors values' fs' Hrun.
  - inversion Hrun; subst. cbn. rewrite app_nil_r. repeat split. intros f raw [].
  - unfold res_bind in Hrun.
    destruct (_BaseGetter.get env (fname f) Missing) as [[|raw]|e] eqn:Hget; [| |discriminate].
    + apply IH in Hrun. destruct Hrun as (He & Hv & Hfs & Hval).
      cbn [map filter]. unfold supplied at 1, decoded at 1. rewrite Hget.
      repeat split; try assumption.
      intros f' raw' [<-|Hin] Hget'; [congruence | eauto].
    + destruct (field_validate cls f raw) as [v_|] eqn:Hval0.
      * apply IH in Hrun. destruct Hrun as (He & Hv & Hfs & Hval).
        cbn [map filter]. unfold supplied at 1, decoded at 1. rewrite Hget, Hval0.
        rewrite <- app_assoc in Hfs.
        repeat split; try assumption.
        intros f' raw' [<-|Hin] Hget'; [|eauto].
        unfold decoded. rewrite Hget. rewrite Hget' in Hget. inversion Hget; subst.
        now rewrite Hval0.
      * apply IH in Hrun. destruct Hrun as (He & _). discriminate.
Qed.

(** A decoded instance holds every declared field, in declaration
    order; the fields that count as set are the ones the getter
    supplied. *)
Lemma from_orm_ok c env r :
  from_orm c env = Ok r ->
  cls r = c /\
  __dict__ r = map (fun f => (fname f, decoded c env f)) (__fields__ c) /\
  __fields_set__ r = filter (supplied env) (map fname (__fields__ c)) /\
  (forall f raw, In f (__fields__ c) ->
     _BaseGetter.get env (fname f) Missing = Ok (Val raw) ->
     field_validate c f raw = Some (decoded c env f)).
Proof.
  unfold from_orm, validate_model, res_bind. intros Hrun.
  destruct (validate_fields c env (__fields__ c) [] [] false)
    as [[[values fs] errors]|e] eqn:Hv; [|discriminate].
  destruct errors; [discriminate|]. inversion Hrun; subst; clear Hrun.
  apply validate_fields_ok in Hv. destruct Hv as (_ & Hd & Hfs & Hval).
  cbn. repeat split; try assumption.
  rewrite Hd. apply dict_update_fresh. cbn. unfold dict_keys.
  rewrite map_map. cbn. apply fields_nodup.
Qed.

Lemma decoded_keys c env :
  dict_keys (map (fun f => (fname f, decoded c env f)) (__fields__ c))
  = map fname (__fields__ c).
Proof. unfold dict_keys. rewrite map_map. reflexivity. Qed.

(** The payload of a decoded instance, read off the envelope. *)
Lemma payload_of_decoded c env r k v :
  from_orm c env = Ok r ->
  (dict_get k (_fields_to_attributes r) = Some v <->
   exists f raw,
     In f (__fields__ c) /\ fname f = k /\
     in_strs k (__exclude_fields__ c ++ ["type"; "relationships"; "id"]) = false /\
     _BaseGetter.get env k Missing = Ok (Val raw) /\
     field_validate c f raw = Some v /\ v <> VNone).
Proof.
  intros Hrun. destruct (from_orm_ok _ _ _ Hrun) as (Hc & Hd & Hfs & Hval).
  assert (Hnd : NoDup (dict_keys (__dict__ r))).
  { rewrite Hd, decoded_keys. apply fields_nodup. }
  unfold _fields_to_attributes, dict_.
  rewrite dict_update_fresh by (cbn; unfold _iter; now apply NoDup_keys_filter).
  cbn [app]. rewrite dict_get_iff_In by (unfold _iter; now apply NoDup_keys_filter).
  unfold _iter. rewrite filter_In. cbn [fst snd andb].
  rewrite negb_true_iff, orb_false_iff, negb_false_iff.
  unfold _calculate_keys. rewrite in_strs_In, filter_In, negb_true_iff.
  rewrite Hc, Hfs, Hd, filter_In, in_map_iff.
  split.
  - intros ((f & E & Hin) & ((_ & Hsup) & Hex) & Hn).
    inversion E; subst; clear E.
    unfold supplied in Hsup.
    destruct (_BaseGetter.get env (fname f) Missing) as [[|raw]|e] eqn:Hget;
      try discriminate.
    exists f, raw. repeat split; try assumption.
    + eauto.
    + intros E. rewrite E in Hn. discriminate.
  - intros (f & raw & Hin & <- & Hex & Hget & Hv & Hn).
    rewrite (Hval _ _ Hin Hget) in Hv. injection Hv as Hv. subst v.
    repeat split.
    + exists f. split; [reflexivity | assumption].
    + apply in_map_iff. exists f. split; [reflexivity | assumption].
    + unfold supplied. now rewrite Hget.
    + assumption.
    + destruct (decoded c env f); try reflexivity. now contradiction Hn.
Qed.

Lemma dict_get_set_other k k' v d :
  k' <> k -> dict_get k' (dict_set k v d) = dict_get k' d.
Proof.
  intros Hne. induction d as [|[k0 v0] d IH]; cbn.
  - destruct (String.eqb_spec k' k); [contradiction | reflexivity].
  - destruct (String.eqb_spec k k0) as [->|Hk]; cbn.
    + destruct (String.eqb_spec k' k0); [contradiction | reflexivity].
    + destruct (String.eqb_spec k' k0); [reflexivity | assumption].
Qed.

Lemma dict_get_set_eq k v d : dict_get k (dict_set k v d) = Some v.
Proof.
  induction d as [|[k0 v0] d IH]; cbn.
  - now rewrite String.eqb_refl.
  - destruct (String.eqb_spec k k0) as [->|Hk]; cbn.
    + now rewrite String.eqb_refl.
    + destruct (String.eqb_spec k k0); [contradiction | assumption].
Qed.

(** Decoding reads the input only through the getter, at the names of
    the declared fields. *)
Lemma validate_fields_ext c e1 e2 fields :
  (forall f, In f fields ->
     _BaseGetter.get e1 (fname f) Missing = _BaseGetter.get e2 (fname f) Missing) ->
  forall values fs errors,
    validate_fields c e1 fields values fs errors
    = validate_fields c e2 fields values fs errors.
Proof.
  induction fields as [|f fields IH]; intros Hget values fs errors;
    cbn [validate_fields]; [reflexivity|].
  rewrite (Hget f (or_introl eq_refl)). unfold res_bind.
  destruct (_BaseGetter.get e2 (fname f) Missing) as [[|raw]|e];
    [ | destruct (field_validate c f raw) | reflexivity ];
    apply IH; intros f' Hin; apply Hget; now right.
Qed.

Lemma getter_other_key o data_ attrs k v name default :
  dict_get "data" o = Some (VDict data_) ->
  dict_get "attributes" data_ = Some (VDict attrs) ->
  name <> k ->
  _BaseGetter.get
    (VDict (dict_set "data"
       (VDict (dict_set "attributes" (VDict (dict_set k v attrs)) data_)) o))
    name default
  = _BaseGetter.get (VDict o) name default.
Proof.
  intros Hdata Hattrs Hne. unfold _BaseGetter.get.
  cbn [py_getitem res_bind]. rewrite dict_get_set_eq, Hdata.
  cbn [res_bind py_getitem py_dict_get].
  unfold in_strs. cbn [existsb].
  destruct (String.eqb_spec name "id") as [->|Hid]; cbn [orb].
  { now rewrite dict_get_set_other by discriminate. }
  destruct (String.eqb_spec name "type") as [->|Hty]; cbn [orb].
  { now rewrite dict_get_set_other by discriminate. }
  destruct (String.eqb_spec name "relationships") as [->|Hrel].
  { now rewrite dict_get_set_other by discriminate. }
  rewrite dict_get_set_eq, Hattrs. cbn [res_bind py_contains py_getitem].
  unfold dict_has. now rewrite (dict_get_set_other k name v attrs Hne).
Qed.

(** X1. An attribute the class does not declare is tolerated: adding
    it to the [attributes] of an envelope changes nothing of what the
    envelope decodes to, failure or instance. *)
Theorem unknown_attribute_tolerated :
  forall (c : Kind) (o data_ attrs : dict) (k : string) (v : value),
    dict_get "data" o = Some (VDict data_) ->
    dict_get "attributes" data_ = Some (VDict attrs) ->
    in_strs k (map fname (__fields__ c)) = false ->
    from_orm c
      (VDict (dict_set "data"
         (VDict (dict_set "attributes" (VDict (dict_set k v attrs)) data_)) o))
    = from_orm c (VDict o).
Proof.
  intros c o data_ attrs k v Hdata Hattrs Hk.
  unfold from_orm, validate_model. f_equal.
  apply validate_fields_ext. intros f Hin.
  apply (getter_other_key o data_ attrs k v); try assumption.
  intros E. rewrite <- E in Hk.
  assert (Hin' : in_strs (fname f) (map fname (__fields__ c)) = true)
    by (apply in_strs_In; now apply in_map).
  congruence.
Qed.

Lemma dict_empty_iff (d : dict) : d = [] <-> forall k, dict_get k d = None.
Proof.
  split; [intros -> k; reflexivity|].
  destruct d as [|[k v] d]; [reflexivity|].
  intros Hn. specialize (Hn k). cbn in Hn. rewrite String.eqb_refl in Hn.
  discriminate.
Qed.

(** C3 (amended). Decoding an envelope and encoding the instance again
    with no field changed gives the payload that holds, for each
    declared field the envelope supplies under [attributes] (other than
    the excluded ones), its validated value when that is not [None],
    and nothing else; it is empty exactly when every such field
    validates to [None], as when the envelope supplies none. *)
Theorem reencode_after_decode :
  forall (c : Kind) (env : value) (r : Instance),
    from_orm c env = Ok r ->
    (forall k v,
       dict_get k (_fields_to_attributes r) = Some v <->
       exists f raw,
         In f (__fields__ c) /\ fname f = k /\
         in_strs k (__exclude_fields__ c ++ ["type"; "relationships"; "id"]) = false /\
         _BaseGetter.get env k Missing = Ok (Val raw) /\
         field_validate c f raw = Some v /\ v <> VNone) /\
    (_fields_to_attributes r = [] <->
     forall f raw,
       In f (__fields__ c) ->
       in_strs (fname f) (__exclude_fields__ c ++ ["type"; "relationships"; "id"]) = false ->
       _BaseGetter.get env (fname f) Missing = Ok (Val raw) ->
       field_validate c f raw = Some VNone).
Proof.
  intros c env r Hrun. split.
  - intros k v. now apply payload_of_decoded.
  - rewrite dict_empty_iff. split.
    + intros Hnone f raw Hin Hex Hget.
      destruct (from_orm_ok _ _ _ Hrun) as (_ & _ & _ & Hval).
      rewrite (Hval _ _ Hin Hget).
      destruct (decoded c env f) eqn:Hd; try reflexivity;
        (assert (Hsome : dict_get (fname f) (_fields_to_attributes r)
                         = Some (decoded c env f));
         [ apply (payload_of_decoded c env r); [assumption|];
           exists f, raw; repeat split; try assumption;
           [ now apply Hval | rewrite Hd; discriminate ]
         | rewrite Hnone in Hsome; discriminate ]).
    + intros Hall k.
      destruct (dict_get k (_fields_to_attributes r)) as [v|] eqn:E; [|reflexivity].
      apply (payload_of_decoded c env r) in E; [|assumption].
      destruct E as (f & raw & Hin & <- & Hex & Hget & Hv & Hn).
      rewrite (Hall _ _ Hin Hex Hget) in Hv. injection Hv as <-. now contradiction Hn.
Qed.

End Decoding.

(** The envelope of a user that the server describes by its name only. *)
Lemma decode_reencode_not_empty :
  exists r,
    from_orm (H := in_memory) User
      (envelope [("type", VStr "user"); ("id", VStr "u1");
                 ("attributes", VDict [("username", VStr "alice")])]) = Ok r /\
    _fields_to_attributes r = [("username", VStr "alice")] /\
    _fields_to_attributes r <> [].
Proof.
  eexists. split; [reflexivity|]. split; [reflexivity | discriminate].
Qed.

Lemma reencode_after_decode_witness :
  exists r,
    from_orm (H := in_memory) User
      (envelope [("type", VStr "user"); ("id", VStr "u1");
                 ("attributes", VDict [("password", VStr "s3cret")])]) = Ok r /\
    _fields_to_attributes r = [].
Proof.
  eexists. split; [reflexivity|].
  refine (proj2 (proj2 (@reencode_after_decode in_memory User
    (envelope [("type", VStr "user"); ("id", VStr "u1");
               ("attributes", VDict [("password", VStr "s3cret")])])
    _ eq_refl)) _).
  intros f raw Hin Hex Hget. cbn in Hin.
  repeat (destruct Hin as [<-|Hin]; [cbv in Hex, Hget; try discriminate|]).
  destruct Hin.
Defined.

(** *** Workflows *)

Section Workflows.

Context `{Collaborators}.

Lemma known_resource_name c :
  in_strs (_as_resource_name c) ["user"; "user_group"; "access_key"; "job"] = true.
Proof. destruct c; reflexivity. Qed.

Lemma dict_set_set k v w d : dict_set k v (dict_set k w d) = dict_set k v d.
Proof.
  induction d as [|[k' v'] d IH]; cbn.
  - now rewrite String.eqb_refl.
  - destruct (String.eqb_spec k k') as [->|Hne]; cbn.
    + now rewrite String.eqb_refl.
    + destruct (String.eqb_spec k k'); [contradiction | now rewrite IH].
Qed.

Lemma dict_set_same k v d : dict_get k d = Some v -> dict_set k v d = d.
Proof.
  induction d as [|[k' v'] d IH]; cbn; [discriminate|].
  destruct (String.eqb_spec k k') as [->|Hne].
  - now intros [= ->].
  - intros Hg. now rewrite IH.
Qed.

Lemma nth_error_last {A} (l : list A) a : nth_error (l ++ [a]) (length l) = Some a.
Proof. induction l; cbn; auto. Qed.

Lemma nth_error_before {A} (l : list A) a n x :
  nth_error l n = Some x -> nth_error (l ++ [a]) n = Some x.
Proof.
  intros Hn. rewrite nth_error_app1; [assumption|].
  apply nth_error_Some. congruence.
Qed.

Lemma list_set_last {A} (l : list A) a x :
  list_set (l ++ [a]) (length l) x = l ++ [x].
Proof. induction l; cbn; [reflexivity | now f_equal]. Qed.

(** One step of a coroutine: a pure computation whose result is
    known, or a reference whose object is known. *)
Ltac bind_lift H := unfold bind at 1; unfold lift at 1; rewrite H.
Ltac bind_deref H :=
  unfold bind at 1; unfold deref at 1; cbn [heap]; rewrite H.

(** A fetch that the transport answers and that decodes. *)
Lemma get_run c id include (s : State) a srv' inst :
  respond
    (ReqGet (_as_resource_name c) id
       (include_params include)) (srv s) = (Ok a, srv') ->
  from_orm c a = Ok inst ->
  _BaseResource_get c id include s
  = (Ok (length (heap s)),
     mkState (heap s ++ [inst])
       (log s ++
        [ReqGet (_as_resource_name c) id (include_params include)])
       srv').
Proof.
  intros Hresp Hfrom.
  unfold _BaseResource_get, bind, get_crud, _CrudFactory_create. cbv zeta.
  rewrite known_resource_name. unfold ret, crud_get, request.
  rewrite Hresp. unfold lift, new. rewrite Hfrom. reflexivity.
Qed.

(** C4. An update that the transport accepts sends the write payload
    of the instance with the relationships it was given, fetches the
    resource again by its id, and overlays the fetched fields on the
    [__dict__] of the caller's own object, at the same place of the
    heap; it evaluates to [None], not to the resource. *)
Theorem update_overlays_in_place :
  forall (s : State) (self : nat) (this : Instance) (type : string)
         (id relationships a1 a2 : value) (srv1 srv2 : Srv)
         (refreshed : Instance),
    nth_error (heap s) self = Some this ->
    getattr this "type" = Ok (VStr type) ->
    in_strs type ["user"; "user_group"; "access_key"; "job"] = true ->
    getattr this "id" = Ok id ->
    respond (ReqUpdate type id (VDict (_fields_to_attributes this)) relationships)
            (srv s) = (Ok a1, srv1) ->
    respond (ReqGet (_as_resource_name (cls this)) id []) srv1 = (Ok a2, srv2) ->
    from_orm (cls this) a2 = Ok refreshed ->
    _BaseResource_update self relationships s
    = (Ok RNone,
       mkState
         (list_set (heap s ++ [refreshed]) self
            (mkInstance (cls this)
               (dict_update (__dict__ this) (__dict__ refreshed))
               (__fields_set__ this)))
         (log s ++
          [ReqUpdate type id (VDict (_fields_to_attributes this)) relationships;
           ReqGet (_as_resource_name (cls this)) id []])
         srv2).
Proof.
  intros s self this type id relationships a1 a2 srv1 srv2 refreshed
    Hself Htype Hknown Hid Hupd Hget Hfrom.
  unfold _BaseResource_update.
  bind_deref Hself. bind_lift Htype.
  unfold bind at 1. unfold get_crud, _CrudFactory_create. rewrite Hknown.
  unfold ret at 1.
  bind_lift Hid.
  unfold bind at 1. unfold crud_update, request. rewrite Hupd.
  unfold bind at 1.
  rewrite (get_run (cls this) id [] _ a2 srv2 refreshed) by assumption.
  cbn [heap log srv].
  bind_deref (nth_error_last (heap s) refreshed).
  bind_deref (nth_error_before _ refreshed _ _ Hself).
  unfold bind at 1. unfold set_dict. cbn [heap log srv].
  rewrite (nth_error_before _ _ _ _ Hself).
  unfold ret. rewrite <- app_assoc. reflexivity.
Qed.

(** *** Group membership *)

Lemma res_map_snoc {A B} (f : A -> Res B) l x ys y :
  res_map f l = Ok ys -> f x = Ok y -> res_map f (l ++ [x]) = Ok (ys ++ [y]).
Proof.
  revert ys. induction l as [|a l IH]; cbn; intros ys Hl Hx.
  - injection Hl as <-. now rewrite Hx.
  - destruct (f a) as [b|e]; cbn in *; [|discriminate].
    destruct (res_map f l) as [bs|e]; cbn in *; [|discriminate].
    injection Hl as <-. now rewrite (IH bs eq_refl Hx).
Qed.

Lemma linkages_absent rels l :
  dict_has "user_groups" rels = false ->
  user_group_linkages rels = Some l -> l = [].
Proof.
  unfold user_group_linkages. intros Hn. apply dict_has_false in Hn.
  rewrite Hn. now intros [= <-].
Qed.

Lemma linkages_set rels l :
  user_group_linkages (set_linkages rels l) = Some l.
Proof.
  unfold user_group_linkages, set_linkages.
  destruct (dict_get "user_groups" rels) as [[| | | | |ug]|];
    rewrite dict_get_set_eq; cbn [dict_get String.eqb Ascii.eqb Bool.eqb];
    try reflexivity.
  now rewrite dict_get_set_eq.
Qed.

Lemma group_ids_of rels l ids :
  dict_has "user_groups" rels = true ->
  user_group_linkages rels = Some l ->
  res_map (fun group => py_getitem group "id") l = Ok ids ->
  group_ids (VDict rels) = Ok ids.
Proof.
  unfold user_group_linkages, group_ids. intros Hhas Hl Hids.
  apply dict_get_has in Hhas. destruct Hhas as [ug Hug].
  cbn [py_getitem res_bind]. rewrite Hug in *. cbn [res_bind].
  destruct ug as [| | | | |ug]; try discriminate.
  cbn [py_getitem]. destruct (dict_get "data" ug) as [[| | | |l'|]|]; try discriminate.
  injection Hl as ->. cbn [res_bind py_iter]. exact Hids.
Qed.

Lemma append_group_of rels l x :
  dict_has "user_groups" rels = true ->
  user_group_linkages rels = Some l ->
  append_group (VDict rels) x = Ok (VDict (set_linkages rels (l ++ [x]))).
Proof.
  unfold user_group_linkages, append_group, set_linkages. intros Hhas Hl.
  apply dict_get_has in Hhas. destruct Hhas as [ug Hug].
  cbn [py_getitem res_bind]. rewrite Hug in *. cbn [res_bind].
  destruct ug as [| | | | |ug]; try discriminate.
  cbn [py_getitem]. destruct (dict_get "data" ug) as [[| | | |l'|]|]; try discriminate.
  injection Hl as ->. reflexivity.
Qed.

Lemma without_group_of rels ug l ids group_id :
  dict_get "user_groups" rels = Some (VDict ug) ->
  dict_get "data" ug = Some (VList l) ->
  res_map (fun group => py_getitem group "id") l = Ok ids ->
  without_group (VDict rels) group_id
  = Ok (VDict (set_linkages rels
         (filter (fun group => negb (str_eq group_id (linkage_id group))) l))).
Proof.
  intros Hug Hdata Hids. unfold without_group, set_linkages.
  cbn [py_getitem res_bind]. rewrite Hug. cbn [res_bind py_getitem].
  rewrite Hdata. cbn [res_bind py_iter].
  assert (Hf : res_filter
                 (fun group => res_bind (py_getitem group "id")
                    (fun id => Ok (negb (str_eq group_id id)))) l
               = Ok (filter (fun group => negb (str_eq group_id (linkage_id group))) l)).
  { clear Hdata. revert ids Hids. induction l as [|g l IH]; cbn; intros ids Hids;
      [reflexivity|].
    unfold linkage_id at 1.
    destruct (py_getitem g "id") as [i|e]; cbn in *; [|discriminate].
    destruct (res_map (fun group => py_getitem group "id") l) as [ids0|e];
      cbn in *; [|discriminate].
    now rewrite (IH ids0 eq_refl). }
  rewrite Hf. reflexivity.
Qed.

Lemma filter_ids l ids group_id :
  res_map (fun group => py_getitem group "id") l = Ok ids ->
  res_map (fun group => py_getitem group "id")
    (filter (fun group => negb (str_eq group_id (linkage_id group))) l)
  = Ok (filter (fun id => negb (str_eq group_id id)) ids).
Proof.
  revert ids. induction l as [|g l IH]; cbn; intros ids Hids.
  - now injection Hids as <-.
  - unfold linkage_id at 1.
    destruct (py_getitem g "id") as [i|e] eqn:Hg; cbn in *; [|discriminate].
    destruct (res_map (fun group => py_getitem group "id") l) as [ids0|e];
      cbn in *; [|discriminate].
    injection Hids as <-. cbn.
    destruct (str_eq group_id i); cbn.
    + now apply IH.
    + rewrite Hg. cbn. now rewrite (IH ids0 eq_refl).
Qed.

Lemma filter_absent l ids group_id :
  res_map (fun group => py_getitem group "id") l = Ok ids ->
  existsb (str_eq group_id) ids = false ->
  filter (fun group => negb (str_eq group_id (linkage_id group))) l = l.
Proof.
  revert ids. induction l as [|g l IH]; cbn; intros ids Hids Hex; [reflexivity|].
  unfold linkage_id at 1.
  destruct (py_getitem g "id") as [i|e]; cbn in *; [|discriminate].
  destruct (res_map (fun group => py_getitem group "id") l) as [ids0|e];
    cbn in *; [|discriminate].
  injection Hids as <-. cbn in Hex. apply orb_false_iff in Hex.
  destruct Hex as [Hi Hrest]. rewrite Hi. cbn. f_equal. now apply (IH ids0).
Qed.

Lemma count_absent (group_id : string) ids :
  existsb (str_eq group_id) ids = false ->
  length (filter (str_eq group_id) ids) = 0.
Proof.
  induction ids as [|i ids IH]; cbn; [reflexivity|].
  intros Hex. apply orb_false_iff in Hex. destruct Hex as [Hi His].
  rewrite Hi. auto.
Qed.

Lemma count_present (group_id : string) ids :
  existsb (str_eq group_id) ids = true ->
  1 <= length (filter (str_eq group_id) ids).
Proof.
  induction ids as [|i ids IH]; cbn; [discriminate|].
  destruct (str_eq group_id i); cbn; [lia | auto].
Qed.

Lemma set_relationships_run (heap0 : list Instance) inst lg (sv : Srv) rel :
  set_relationships (length heap0) rel (mkState (heap0 ++ [inst]) lg sv)
  = (Ok tt,
     mkState
       (heap0 ++ [mkInstance (cls inst)
                    (dict_set "relationships" rel (__dict__ inst))
                    (__fields_set__ inst)])
       lg sv).
Proof.
  unfold set_relationships, bind, deref, set_dict. cbn [heap log srv].
  rewrite nth_error_last. cbn [heap log srv].
  rewrite nth_error_last, list_set_last. reflexivity.
Qed.

(** The steps that open both membership workflows: the caller's id is
    read and the user is fetched with its groups. *)
Lemma fetch_with_groups (s : State) self this id a srv1 fetched rels
    (k : nat -> Instance -> value -> M retval) :
  nth_error (heap s) self = Some this ->
  cls this = User ->
  getattr this "id" = Ok id ->
  respond (ReqGet "user" id [("include", VStr "user_groups")]) (srv s)
    = (Ok a, srv1) ->
  from_orm User a = Ok fetched ->
  getattr fetched "relationships" = Ok rels ->
  bind (deref self) (fun this =>
  bind (lift (getattr this "id")) (fun id =>
  bind (_BaseResource_get (cls this) id ["user_groups"]) (fun user =>
  bind (deref user) (fun fetched =>
  bind (lift (getattr fetched "relationships")) (fun relationships =>
  k user fetched relationships))))) s
  = k (length (heap s)) fetched rels
      (mkState (heap s ++ [fetched])
         (log s ++ [ReqGet "user" id [("include", VStr "user_groups")]]) srv1).
Proof.
  intros Hself Hcls Hid Hresp Hfrom Hrel.
  bind_deref Hself. bind_lift Hid.
  unfold bind at 1. rewrite Hcls.
  rewrite (get_run User id ["user_groups"] s a srv1 fetched Hresp Hfrom).
  bind_deref (nth_error_last (heap s) fetched). bind_lift Hrel.
  reflexivity.
Qed.

(** C5 (amended). Adding a user to a group appends the linkage of the
    group to the [user_groups] relationship and pushes the
    relationships only when no linkage with that id is there; otherwise
    nothing is sent after the fetch and the linkages stay as they are.
    The relationships that are pushed hold the id, so a second call
    that fetches them sends nothing, and a relationship that held the
    id at most once holds it exactly once afterwards. *)
Theorem add_to_group_idempotent :
  forall (s : State) (self : nat) (this fetched : Instance) (id a : value)
         (srv1 : Srv) (group_id : string) (rels : dict) (l ids : list value),
    nth_error (heap s) self = Some this ->
    cls this = User ->
    getattr this "id" = Ok id ->
    respond (ReqGet "user" id [("include", VStr "user_groups")]) (srv s)
      = (Ok a, srv1) ->
    from_orm User a = Ok fetched ->
    getattr fetched "relationships" = Ok (VDict rels) ->
    user_group_linkages rels = Some l ->
    res_map (fun group => py_getitem group "id") l = Ok ids ->
    (existsb (str_eq group_id) ids = true ->
     User_add_to_group self group_id s
     = (Ok RNone,
        mkState (heap s ++ [fetched])
          (log s ++ [ReqGet "user" id [("include", VStr "user_groups")]])
          srv1)) /\
    (existsb (str_eq group_id) ids = false ->
     User_add_to_group self group_id s
     = bind
         (update (length (heap s))
            (VDict (set_linkages rels
               (l ++ [VDict [("id", VStr group_id); ("type", VStr "user_group")]]))))
         (fun _ => ret RNone)
         (mkState
            (heap s ++
             [mkInstance User
                (dict_set "relationships"
                   (VDict (set_linkages rels
                      (l ++ [VDict [("id", VStr group_id);
                                    ("type", VStr "user_group")]])))
                   (__dict__ fetched))
                (__fields_set__ fetched)])
            (log s ++ [ReqGet "user" id [("include", VStr "user_groups")]])
            srv1)) /\
    user_group_linkages
      (set_linkages rels
         (l ++ [VDict [("id", VStr group_id); ("type", VStr "user_group")]]))
    = Some (l ++ [VDict [("id", VStr group_id); ("type", VStr "user_group")]]) /\
    res_map (fun group => py_getitem group "id")
      (l ++ [VDict [("id", VStr group_id); ("type", VStr "user_group")]])
    = Ok (ids ++ [VStr group_id]) /\
    existsb (str_eq group_id) (ids ++ [VStr group_id]) = true /\
    (length (filter (str_eq group_id) ids) <= 1 ->
     length (filter (str_eq group_id)
               (if existsb (str_eq group_id) ids then ids
                else ids ++ [VStr group_id])) = 1).
Proof.
  intros s self this fetched id a srv1 group_id rels l ids
    Hself Hcls Hid Hresp Hfrom Hrel Hl Hids.
  assert (Hc : cls fetched = User) by (now destruct (from_orm_ok _ _ _ Hfrom)).
  split; [|split; [|split; [|split; [|split]]]].
  - intros Hin. unfold User_add_to_group.
    rewrite (fetch_with_groups s self this id a srv1 fetched (VDict rels))
      by assumption.
    unfold bind at 1. unfold lift at 1. cbn [py_contains].
    destruct (dict_has "user_groups" rels) eqn:Hhas.
    + unfold bind at 1. unfold ret at 1.
      unfold bind at 1. unfold lift at 1.
      rewrite (group_ids_of rels l ids Hhas Hl Hids), Hin. reflexivity.
    + rewrite (linkages_absent _ _ Hhas Hl) in Hids. cbn in Hids.
      injection Hids as <-. discriminate.
  - intros Hout. unfold User_add_to_group.
    rewrite (fetch_with_groups s self this id a srv1 fetched (VDict rels))
      by assumption.
    unfold bind at 1. unfold lift at 1. cbn [py_contains].
    destruct (dict_has "user_groups" rels) eqn:Hhas.
    + unfold bind at 1. unfold ret at 1.
      unfold bind at 1. unfold lift at 1.
      rewrite (group_ids_of rels l ids Hhas Hl Hids), Hout. cbn [negb].
      unfold bind at 1. unfold lift at 1.
      rewrite (append_group_of rels l _ Hhas Hl).
      unfold bind at 1. rewrite set_relationships_run. rewrite Hc.
      reflexivity.
    + pose proof (linkages_absent _ _ Hhas Hl) as ->.
      pose proof (dict_has_false _ _ Hhas) as Hnone.
      unfold bind at 1. unfold bind at 1. unfold lift at 1. cbn [py_setitem].
      unfold bind at 1. rewrite set_relationships_run. unfold ret at 1.
      unfold bind at 1. unfold lift at 1.
      unfold group_ids. cbn [py_getitem res_bind].
      rewrite dict_get_set_eq.
      cbn [res_bind py_getitem dict_get String.eqb Ascii.eqb Bool.eqb py_iter
           res_map existsb negb].
      unfold bind at 1. unfold lift at 1.
      unfold append_group. cbn [py_getitem res_bind].
      rewrite dict_get_set_eq.
      cbn [res_bind py_getitem dict_get String.eqb Ascii.eqb Bool.eqb
           py_append py_setitem dict_set app].
      rewrite dict_set_set.
      unfold bind at 1. rewrite set_relationships_run.
      cbn [cls __dict__ __fields_set__]. rewrite dict_set_set, Hc.
      unfold set_linkages. rewrite Hnone. reflexivity.
  - apply linkages_set.
  - apply (res_map_snoc _ _ _ _ _ Hids). reflexivity.
  - rewrite existsb_app. cbn. rewrite String.eqb_refl. apply orb_true_r.
  - intros Hle. destruct (existsb (str_eq group_id) ids) eqn:Hex.
    + apply count_present in Hex. lia.
    + rewrite filter_app, length_app, (count_absent _ _ Hex). cbn.
      rewrite String.eqb_refl. reflexivity.
Qed.

Lemma existsb_filter_out {A} (f : A -> bool) l :
  existsb f (filter (fun x => negb (f x)) l) = false.
Proof.
  induction l as [|x l IH]; cbn; [reflexivity|].
  destruct (f x) eqn:E; cbn; [assumption|]. now rewrite E.
Qed.

Lemma set_linkages_same rels ug l :
  dict_get "user_groups" rels = Some (VDict ug) ->
  dict_get "data" ug = Some (VList l) ->
  set_linkages rels l = rels.
Proof.
  intros Hug Hdata. unfold set_linkages. rewrite Hug.
  rewrite (dict_set_same _ _ _ Hdata). now apply dict_set_same.
Qed.

(** C6. Removing a user from a group raises nothing of its own: when
    the user has no [user_groups] relationship nothing is sent after
    the fetch; otherwise the linkages whose id is the group's are
    filtered out and the relationships are pushed.  When no linkage
    has that id the list and the relationships pushed are the fetched
    ones, unchanged. *)
Theorem remove_from_group_filters :
  forall (s : State) (self : nat) (this fetched : Instance) (id a : value)
         (srv1 : Srv) (group_id : string) (rels : dict),
    nth_error (heap s) self = Some this ->
    cls this = User ->
    getattr this "id" = Ok id ->
    respond (ReqGet "user" id [("include", VStr "user_groups")]) (srv s)
      = (Ok a, srv1) ->
    from_orm User a = Ok fetched ->
    getattr fetched "relationships" = Ok (VDict rels) ->
    (dict_get "user_groups" rels = None ->
     User_remove_from_group self group_id s
     = (Ok RNone,
        mkState (heap s ++ [fetched])
          (log s ++ [ReqGet "user" id [("include", VStr "user_groups")]])
          srv1)) /\
    (forall (ug : dict) (l ids : list value),
       dict_get "user_groups" rels = Some (VDict ug) ->
       dict_get "data" ug = Some (VList l) ->
       res_map (fun group => py_getitem group "id") l = Ok ids ->
       without_group (VDict rels) group_id
       = Ok (VDict (set_linkages rels
              (filter (fun group => negb (str_eq group_id (linkage_id group))) l))) /\
       User_remove_from_group self group_id s
       = bind
           (update (length (heap s))
              (VDict (set_linkages rels
                 (filter (fun group => negb (str_eq group_id (linkage_id group))) l))))
           (fun _ => ret RNone)
           (mkState
              (heap s ++
               [mkInstance User
                  (dict_set "relationships"
                     (VDict (set_linkages rels
                        (filter (fun group =>
                                   negb (str_eq group_id (linkage_id group))) l)))
                     (__dict__ fetched))
                  (__fields_set__ fetched)])
              (log s ++ [ReqGet "user" id [("include", VStr "user_groups")]])
              srv1) /\
       res_map (fun group => py_getitem group "id")
         (filter (fun group => negb (str_eq group_id (linkage_id group))) l)
       = Ok (filter (fun i => negb (str_eq group_id i)) ids) /\
       existsb (str_eq group_id)
         (filter (fun i => negb (str_eq group_id i)) ids) = false /\
       (existsb (str_eq group_id) ids = false ->
        filter (fun group => negb (str_eq group_id (linkage_id group))) l = l /\
        set_linkages rels
          (filter (fun group => negb (str_eq group_id (linkage_id group))) l)
        = rels)).
Proof.
  intros s self this fetched id a srv1 group_id rels
    Hself Hcls Hid Hresp Hfrom Hrel.
  assert (Hc : cls fetched = User) by (now destruct (from_orm_ok _ _ _ Hfrom)).
  split.
  - intros Hnone. unfold User_remove_from_group.
    rewrite (fetch_with_groups s self this id a srv1 fetched (VDict rels))
      by assumption.
    unfold bind at 1. unfold lift at 1. cbn [py_contains].
    unfold dict_has. rewrite Hnone. reflexivity.
  - intros ug l ids Hug Hdata Hids.
    split; [now apply (without_group_of rels ug l ids)|].
    split; [|split; [|split]].
    + unfold User_remove_from_group.
      rewrite (fetch_with_groups s self this id a srv1 fetched (VDict rels))
        by assumption.
      unfold bind at 1. unfold lift at 1. cbn [py_contains].
      unfold dict_has. rewrite Hug.
      unfold bind at 1. unfold lift at 1.
      rewrite (without_group_of rels ug l ids group_id Hug Hdata Hids).
      unfold bind at 1. rewrite set_relationships_run, Hc. reflexivity.
    + now apply filter_ids.
    + apply existsb_filter_out.
    + intros Hout. rewrite (filter_absent l ids group_id Hids Hout).
      split; [reflexivity|]. now apply (set_linkages_same rels ug l).
Qed.

(** C7. [update] and [delete] of a [Job] always fail, with the
    [RuntimeError] that says the resource cannot be updated or deleted,
    and leave the state as it was: nothing is sent to the transport. *)
Theorem job_update_delete_rejected :
  forall (s : State) (self : nat) (this : Instance) (relationships : value)
         (ignore_missing : bool),
    nth_error (heap s) self = Some this ->
    cls this = Job ->
    update self relationships s
      = (Err (RuntimeError "This resource is not update-able"), s) /\
    delete self ignore_missing s
      = (Err (RuntimeError "This resource is not delete-able"), s) /\
    log (snd (update self relationships s)) = log s /\
    log (snd (delete self ignore_missing s)) = log s.
Proof.
  intros s self this relationships ignore_missing Hself Hcls.
  unfold update, delete, bind, deref. rewrite Hself, Hcls.
  repeat split.
Qed.

(** C8. The create request of a [User] made without
    [assigned_policies] carries the pair of the developer and the
    read-only application roles; that of a [UserGroup] carries the data
    and application admin roles; that of an [AccessKey] made without
    [planes] carries all the session planes. *)
Theorem create_defaults :
  forall (s : State) (username password email first_name last_name name : string)
         (description gid label : value),
    log (snd (User_create username password email first_name last_name VNone s))
      = log s ++
        [ReqCreate "user"
           (VDict [("username", VStr username);
                   ("first_name", VStr first_name);
                   ("last_name", VStr last_name);
                   ("email", VStr email);
                   ("password", VStr password);
                   ("assigned_policies",
                    VList [TenantManagementRoles_developer;
                           TenantManagementRoles_application_read_only])])
           VNone] /\
    log (snd (UserGroup_create name VNone description gid VNone s))
      = log s ++
        [ReqCreate "user_group"
           (VDict [("name", VStr name);
                   ("description", description);
                   ("gid", gid);
                   ("assigned_policies",
                    VList [TenantManagementRoles_data;
                           TenantManagementRoles_application_admin])])
           (VDict [])] /\
    log (snd (AccessKey_create None label s))
      = log s ++
        [ReqCreate "access_key"
           (VDict [("planes", SessionPlanes_all); ("label", label)])
           VNone].
Proof.
  intros. repeat split.
  - unfold User_create, bind, get_crud, _CrudFactory_create, crud_create,
      request, lift, new, ret. cbn.
    destruct (respond _ (srv s)) as [[a|e] srv']; cbn; [|reflexivity].
    destruct (from_orm User a); reflexivity.
  - unfold UserGroup_create, bind, get_crud, _CrudFactory_create, crud_create,
      request, lift, new, ret. cbn.
    destruct (respond _ (srv s)) as [[a|e] srv']; cbn; [|reflexivity].
    destruct (from_orm UserGroup a); reflexivity.
  - unfold AccessKey_create, bind, get_crud, _CrudFactory_create, crud_create,
      request, lift, new, ret. cbn.
    destruct (respond _ (srv s)) as [[a|e] srv']; cbn; [|reflexivity].
    destruct (from_orm AccessKey a); reflexivity.
Qed.

(** C9 (amended). A reload takes no bound from its caller: it sends
    one job request, for the reloads of the configuration, with the
    fixed bound of 900 seconds, and fails exactly when the transport
    fails that request, with the transport's error. *)
Theorem reload_fixed_timeout :
  forall (s : State) (config_type : string),
    Configurations_reload config_type s
    = (match fst (respond (ReqJob ("configurations/" ++ config_type ++ "/reloads") 900)
                          (srv s)) with
       | Ok _ => Ok RNone
       | Err e => Err e
       end,
       mkState (heap s)
               (log s ++ [ReqJob ("configurations/" ++ config_type ++ "/reloads") 900])
               (snd (respond (ReqJob ("configurations/" ++ config_type ++ "/reloads") 900)
                             (srv s)))).
Proof.
  intros s config_type.
  unfold Configurations_reload, bind, request_job, request, ret.
  change (60 * 15)%Z with 900%Z.
  destruct (respond _ (srv s)) as [[a|e] srv']; reflexivity.
Qed.

End Workflows.

Lemma job_update_delete_rejected_witness :
  update (H := in_memory) 0 VNone
    (@mkState in_memory [mkInstance Job [("type", VStr "job"); ("id", VInt 3)] []]
       [] (mkPlane [] 0))
  = (Err (RuntimeError "This resource is not update-able"),
     @mkState in_memory [mkInstance Job [("type", VStr "job"); ("id", VInt 3)] []]
       [] (mkPlane [] 0)).
Proof.
  exact (proj1 (@job_update_delete_rejected in_memory
    (@mkState in_memory [mkInstance Job [("type", VStr "job"); ("id", VInt 3)] []]
       [] (mkPlane [] 0))
    0 _ VNone false eq_refl eq_refl)).
Defined.

(** A job that needs five seconds, reloaded with a bound of one second
    as the caller words it and as the code sends it. *)
Lemma reload_ignores_caller_timeout :
  Configurations_reload_as_specified (H := in_memory) "artifact_version_manifest" 1
    (start (mkPlane [] 5))
  = (Err (External "TimeoutError"),
     @mkState in_memory []
       [ReqJob "configurations/artifact_version_manifest/reloads" 1]
       (mkPlane [] 5)) /\
  Configurations_reload (H := in_memory) "artifact_version_manifest"
    (start (mkPlane [] 5))
  = (Ok RNone,
     @mkState in_memory []
       [ReqJob "configurations/artifact_version_manifest/reloads" 900]
       (mkPlane [] 5)).
Proof. split; reflexivity. Qed.

(** The caller's object after an update on the server in memory: the
    call evaluates to [None] and two requests were sent. *)
Lemma update_overlays_in_place_witness :
  fst (_BaseResource_update (H := in_memory) 0 VNone (on_plane [alice]))
  = Ok RNone /\
  log (snd (_BaseResource_update (H := in_memory) 0 VNone (on_plane [alice])))
  = [ReqUpdate "user" (VStr "u1")
       (VDict [("username", VStr "alice"); ("first_name", VStr "Alice")]) VNone;
     ReqGet "user" (VStr "u1") []] /\
  option_map __dict__
    (nth_error
       (heap (snd (_BaseResource_update (H := in_memory) 0 VNone
                     (on_plane [alice])))) 0)
  = option_map (fun d => dict_update (__dict__ caller) d)
      (match from_orm (H := in_memory) User
               (envelope
                  [("type", VStr "user"); ("id", VStr "u1");
                   ("attributes",
                    VDict [("username", VStr "alice"); ("email", VStr "a@x.io");
                           ("first_name", VStr "Alice")]);
                   ("relationships", VDict [])]) with
       | Ok r => Some (__dict__ r)
       | Err _ => None
       end).
Proof.
  rewrite (@update_overlays_in_place in_memory (on_plane [alice]) 0 caller
             "user" (VStr "u1") VNone _ _ _ _ _
             eq_refl eq_refl eq_refl eq_refl eq_refl eq_refl eq_refl).
  repeat split.
Defined.

(** Two calls for the same group on the server in memory: the first
    appends the linkage, the second sends nothing after its fetch, and
    the server holds the linkage once. *)
Lemma add_to_group_idempotent_witness :
  fst (User_add_to_group (H := in_memory) 0 "g1" (on_plane [alice])) = Ok RNone /\
  resources (srv (snd (User_add_to_group (H := in_memory) 0 "g1"
                         (on_plane [alice])))) = [alice_in_g1] /\
  bind (H := in_memory) (User_add_to_group 0 "g1")
    (fun _ => User_add_to_group 0 "g1") (on_plane [alice])
  = bind (H := in_memory) (User_add_to_group 0 "g1")
      (fun _ => bind (_BaseResource_get User (VStr "u1") ["user_groups"])
                  (fun _ => ret RNone))
      (on_plane [alice]).
Proof.
  rewrite (proj1 (proj2 (@add_to_group_idempotent in_memory (on_plane [alice])
             0 caller _ (VStr "u1") _ _ "g1" [] [] []
             eq_refl eq_refl eq_refl eq_refl eq_refl eq_refl eq_refl eq_refl))
             eq_refl).
  repeat split.
Defined.

(** Removing a group the user is not in, on the server in memory:
    nothing is raised and the linkages stay as they were. *)
Lemma remove_from_group_filters_witness :
  fst (User_remove_from_group (H := in_memory) 0 "g2" (on_plane [alice_in_g1]))
  = Ok RNone /\
  resources (srv (snd (User_remove_from_group (H := in_memory) 0 "g2"
                         (on_plane [alice_in_g1])))) = [alice_in_g1].
Proof.
  rewrite (proj1 (proj2 (proj2 (@remove_from_group_filters in_memory
             (on_plane [alice_in_g1]) 0 caller _ (VStr "u1") _ _ "g2" _
             eq_refl eq_refl eq_refl eq_refl eq_refl eq_refl)
             _ _ [VStr "g1"] eq_refl eq_refl eq_refl))).
  split; reflexivity.
Defined.

(** A user the server lists twice in the group: two calls send nothing
    after their fetch and both linkages stay. *)
Lemma add_to_group_keeps_duplicates :
  bind (H := in_memory) (User_add_to_group 0 "g1")
    (fun _ => User_add_to_group 0 "g1") (on_plane [alice_twice_in_g1])
  = (Ok RNone,
     @mkState in_memory
       (heap (snd (bind (H := in_memory) (User_add_to_group 0 "g1")
                     (fun _ => User_add_to_group 0 "g1")
                     (on_plane [alice_twice_in_g1]))))
       [ReqGet "user" (VStr "u1") [("include", VStr "user_groups")];
        ReqGet "user" (VStr "u1") [("include", VStr "user_groups")]]
       (mkPlane [alice_twice_in_g1] 5)) /\
  map (linked_times "g1")
    (resources (srv (snd (bind (H := in_memory) (User_add_to_group 0 "g1")
                            (fun _ => User_add_to_group 0 "g1")
                            (on_plane [alice_twice_in_g1])))))
  = [Some 2].
Proof. split; reflexivity. Qed.

Lemma unknown_attribute_tolerated_witness :
  from_orm (H := in_memory) User
    (envelope [("type", VStr "user"); ("id", VStr "u1");
               ("attributes",
                VDict [("username", VStr "alice"); ("tenant", VStr "acme")])])
  = from_orm (H := in_memory) User
      (envelope [("type", VStr "user"); ("id", VStr "u1");
                 ("attributes", VDict [("username", VStr "alice")])]).
Proof.
  exact (@unknown_attribute_tolerated in_memory User
           [("data", VDict [("type", VStr "user"); ("id", VStr "u1");
                            ("attributes", VDict [("username", VStr "alice")])])]
           _ _ "tenant" (VStr "acme") eq_refl eq_refl eq_refl).
Defined.

(** * Further properties of decoding and of the write payload *)

Section DecodingMore.

Context `{Collaborators}.

Lemma validate_fields_reads c env : forall fields values fs errors out,
  validate_fields c env fields values fs errors = Ok out ->
  forall f, In f fields ->
    exists got, _BaseGetter.get env (fname f) Missing = Ok got.
Proof.
  induction fields as [|f0 fields IH]; cbn [validate_fields];
    intros values fs errors out Hrun f Hin; [destruct Hin|].
  unfold res_bind in Hrun.
  destruct (_BaseGetter.get env (fname f0) Missing) as [got|e] eqn:Hget;
    [|discriminate].
  destruct Hin as [<-|Hin]; [eauto|].
  destruct got as [|raw]; [eauto|].
  destruct (field_validate c f0 raw); eauto.
Qed.

Lemma identity_always_supplied env k got :
  in_strs k ["id"; "type"; "relationships"] = true ->
  _BaseGetter.get env k Missing = Ok got ->
  supplied env k = true.
Proof.
  intros Hk Hget. unfold supplied. rewrite Hget.
  unfold _BaseGetter.get in Hget. unfold in_strs in Hk. cbn [existsb] in Hk.
  destruct (in_strs k ["id"; "type"]) eqn:Hidt.
  - unfold res_bind in Hget.
    destruct (py_getitem env "data"); [|discriminate].
    destruct (py_getitem a k); [|discriminate]. now injection Hget as <-.
  - unfold in_strs in Hidt. cbn [existsb] in Hidt.
    apply orb_false_iff in Hidt. destruct Hidt as [Hi Ht].
    apply orb_false_iff in Ht. destruct Ht as [Ht _].
    rewrite Hi, Ht in Hk. cbn [orb] in Hk. rewrite orb_false_r in Hk.
    rewrite Hk in Hget. unfold res_bind in Hget.
    destruct (py_getitem env "data"); [|discriminate].
    destruct (py_dict_get a "relationships" (VDict [])); [|discriminate].
    now injection Hget as <-.
Qed.

(** Decoding raises what the getter raises at the first field it
    cannot read. *)
Lemma validate_fields_raises c env e : forall fields1 f fields2 values fs errors,
  (forall f', In f' fields1 ->
     exists got, _BaseGetter.get env (fname f') Missing = Ok got) ->
  _BaseGetter.get env (fname f) Missing = Err e ->
  validate_fields c env (fields1 ++ f :: fields2) values fs errors = Err e.
Proof.
  induction fields1 as [|f1 fields1 IH]; intros f fields2 values fs errors Hok Herr;
    cbn [app validate_fields].
  - now rewrite Herr.
  - destruct (Hok f1 (or_introl eq_refl)) as [got Hgot]. rewrite Hgot.
    cbn [res_bind].
    assert (Hok' : forall f', In f' fields1 ->
              exists got, _BaseGetter.get env (fname f') Missing = Ok got)
      by (intros f' Hin; apply Hok; now right).
    destruct got as [|raw]; [now apply IH|].
    destruct (field_validate c f1 raw); now apply IH.
Qed.

Lemma from_orm_raises c env e fields1 f fields2 :
  __fields__ c = fields1 ++ f :: fields2 ->
  (forall f', In f' fields1 ->
     exists got, _BaseGetter.get env (fname f') Missing = Ok got) ->
  _BaseGetter.get env (fname f) Missing = Err e ->
  from_orm c env = Err e.
Proof.
  intros Hsplit Hok Herr. unfold from_orm, validate_model. rewrite Hsplit.
  now rewrite (validate_fields_raises c env e fields1 f fields2 [] [] false Hok Herr).
Qed.

(** X2. What an envelope must hold to decode: without [data] decoding
    raises [KeyError("data")]; with a [data] mapping that lacks [type]
    it raises [KeyError("type")], whatever the default of the class;
    with [type] but no [id] it raises [KeyError("id")]; with both but
    no [attributes] it raises [KeyError("attributes")]. *)
Theorem decode_missing_members :
  forall (c : Kind),
    (forall o, dict_get "data" o = None ->
       from_orm c (VDict o) = Err (KeyError "data")) /\
    (forall o d, dict_get "data" o = Some (VDict d) ->
       dict_get "type" d = None ->
       from_orm c (VDict o) = Err (KeyError "type")) /\
    (forall o d t, dict_get "data" o = Some (VDict d) ->
       dict_get "type" d = Some t -> dict_get "id" d = None ->
       from_orm c (VDict o) = Err (KeyError "id")) /\
    (forall o d t i, dict_get "data" o = Some (VDict d) ->
       dict_get "type" d = Some t -> dict_get "id" d = Some i ->
       dict_get "attributes" d = None ->
       from_orm c (VDict o) = Err (KeyError "attributes")).
Proof.
  intros c. repeat split.
  - intros o Hdata.
    apply (from_orm_raises c _ _ [] (plain "type") (tl (__fields__ c)));
      [reflexivity | intros f' [] |].
    unfold _BaseGetter.get. cbn. now rewrite Hdata.
  - intros o d Hdata Htype.
    apply (from_orm_raises c _ _ [] (plain "type") (tl (__fields__ c)));
      [reflexivity | intros f' [] |].
    unfold _BaseGetter.get. cbn. rewrite Hdata. cbn. now rewrite Htype.
  - intros o d t Hdata Htype Hid.
    apply (from_orm_raises c _ _ [plain "type"] (optional "id")
             (tl (tl (__fields__ c)))); [reflexivity | |].
    + intros f' [<-|[]]. unfold _BaseGetter.get. cbn. rewrite Hdata. cbn.
      rewrite Htype. cbn. eauto.
    + unfold _BaseGetter.get. cbn. rewrite Hdata. cbn. now rewrite Hid.
  - intros o d t i Hdata Htype Hid Hattrs.
    assert (Hbase : forall f', In f' base_fields ->
              exists got, _BaseGetter.get (VDict o) (fname f') Missing = Ok got).
    { intros f' [<-|[<-|[<-|[]]]]; unfold _BaseGetter.get; cbn; rewrite Hdata; cbn.
      - rewrite Htype. cbn. eauto.
      - rewrite Hid. cbn. eauto.
      - eauto. }
    destruct c;
      match goal with
      | |- from_orm ?k _ = _ =>
          apply (from_orm_raises k _ _ base_fields
                   (hd (plain "") (skipn 3 (__fields__ k)))
                   (tl (skipn 3 (__fields__ k)))); [reflexivity | exact Hbase |]
      end;
      unfold _BaseGetter.get; cbn; rewrite Hdata; cbn; now rewrite Hattrs.
Qed.

(** X3. A decoded instance is of the class that decoded it and holds
    every declared field, in declaration order: a field the envelope
    does not supply holds its declared default and does not count as
    set, while [type], [id] and [relationships] always count as set. *)
Theorem decoded_instance_fields :
  forall (c : Kind) (env : value) (r : Instance),
    from_orm c env = Ok r ->
    cls r = c /\
    dict_keys (__dict__ r) = map fname (__fields__ c) /\
    (forall f, In f (__fields__ c) ->
       _BaseGetter.get env (fname f) Missing = Ok Missing ->
       dict_get (fname f) (__dict__ r) = Some (get_default c f) /\
       in_strs (fname f) (__fields_set__ r) = false) /\
    in_strs "type" (__fields_set__ r) = true /\
    in_strs "id" (__fields_set__ r) = true /\
    in_strs "relationships" (__fields_set__ r) = true.
Proof.
  intros c env r Hrun.
  destruct (from_orm_ok _ _ _ Hrun) as (Hc & Hd & Hfs & _).
  assert (Hreads : forall f, In f (__fields__ c) ->
            exists got, _BaseGetter.get env (fname f) Missing = Ok got).
  { unfold from_orm, validate_model, res_bind in Hrun.
    destruct (validate_fields c env (__fields__ c) [] [] false) eqn:Hv;
      [|discriminate].
    exact (validate_fields_reads _ _ _ _ _ _ _ Hv). }
  assert (Hbase : forall k, in_strs k ["id"; "type"; "relationships"] = true ->
            In (mkField k (negb (String.eqb k "type")) false) (__fields__ c) ->
            in_strs k (__fields_set__ r) = true).
  { intros k Hk Hin. destruct (Hreads _ Hin) as [got Hgot]. cbn in Hgot.
    rewrite Hfs. apply in_strs_In, filter_In. split.
    - change k with (fname (mkField k (negb (String.eqb k "type")) false)).
      now apply in_map.
    - exact (identity_always_supplied _ _ _ Hk Hgot). }
  split; [assumption|]. split; [rewrite Hd; apply decoded_keys|].
  split; [intros f Hin Hmiss; split | split; [|split]].
  - rewrite Hd. apply dict_get_iff_In.
    + rewrite decoded_keys. apply fields_nodup.
    + apply in_map_iff. exists f. split; [|assumption].
      unfold decoded. now rewrite Hmiss.
  - rewrite Hfs. destruct (in_strs (fname f) _) eqn:E; [|reflexivity].
    apply in_strs_In, filter_In in E. destruct E as [_ E].
    unfold supplied in E. rewrite Hmiss in E. discriminate.
  - apply Hbase; [reflexivity|]. unfold __fields__, base_fields.
    apply in_or_app. left. now left.
  - apply Hbase; [reflexivity|]. unfold __fields__, base_fields.
    apply in_or_app. left. right. now left.
  - apply Hbase; [reflexivity|]. unfold __fields__, base_fields.
    apply in_or_app. left. right. right. now left.
Qed.

End DecodingMore.

(** X4. The write payload of an instance whose [__dict__] has no
    repeated key holds exactly the entries of [__dict__] that are set,
    not excluded and not [None]. *)
Theorem payload_characterised :
  forall (self : Instance) (k : string) (v : value),
    NoDup (dict_keys (__dict__ self)) ->
    (dict_get k (_fields_to_attributes self) = Some v <->
     dict_get k (__dict__ self) = Some v /\
     in_strs k (__fields_set__ self) = true /\
     in_strs k (__exclude_fields__ (cls self) ++ ["type"; "relationships"; "id"])
       = false /\
     v <> VNone).
Proof.
  intros self k v Hnd. split.
  - intros Hp. apply payload_entry in Hp. destruct Hp as (Hin & Hs & He & Hn).
    repeat split; try assumption.
    + now apply dict_get_iff_In.
    + intros ->. discriminate.
  - intros (Hd & Hs & He & Hn).
    unfold _fields_to_attributes, dict_.
    rewrite dict_update_fresh by (cbn; unfold _iter; now apply NoDup_keys_filter).
    cbn [app]. apply dict_get_iff_In;
      [unfold _iter; now apply NoDup_keys_filter|].
    unfold _iter. apply filter_In. split; [now apply dict_get_In|].
    cbn [fst snd]. apply negb_true_iff, orb_false_iff. split.
    + apply negb_false_iff. unfold _calculate_keys.
      apply in_strs_In, filter_In. split; [now apply in_strs_In|].
      now apply negb_true_iff.
    + cbn [andb]. destruct v; try reflexivity. now contradiction Hn.
Qed.

(** * Further properties of the coroutines *)

Section Coroutines.

Context `{Collaborators}.

Ltac step_lift H := unfold bind at 1; unfold lift at 1; rewrite H.
Ltac step_deref H :=
  unfold bind at 1; unfold deref at 1; cbn [heap]; rewrite H.
Ltac step_crud H :=
  unfold bind at 1; unfold get_crud, _CrudFactory_create; rewrite H;
  unfold ret at 1.

(** The tail shared by the class methods that build an instance: one
    request, then the decoding of its answer. *)
Lemma decode_answer_cases c q (s : State) :
  match bind (request q)
          (fun a => bind (lift (from_orm c a)) (fun inst => new inst)) s with
  | (Ok ref, s') =>
      ref = length (heap s) /\
      exists a inst,
        fst (respond q (srv s)) = Ok a /\ from_orm c a = Ok inst /\
        s' = mkState (heap s ++ [inst]) (log s ++ [q]) (snd (respond q (srv s)))
  | (Err e, s') =>
      s' = mkState (heap s) (log s ++ [q]) (snd (respond q (srv s)))
  end.
Proof.
  unfold bind, request, lift, new.
  destruct (respond q (srv s)) as [[a|e] srv'] eqn:Hresp; cbn [fst snd];
    [|reflexivity].
  destruct (from_orm c a) as [inst|e] eqn:Hfrom; cbn [heap log srv];
    [|reflexivity].
  split; [reflexivity|]. now exists a, inst.
Qed.

Lemma get_cases c id include (s : State) :
  match _BaseResource_get c id include s with
  | (Ok ref, s') =>
      ref = length (heap s) /\
      exists a inst,
        fst (respond (ReqGet (_as_resource_name c) id (include_params include))
                     (srv s)) = Ok a /\
        from_orm c a = Ok inst /\
        s' = mkState (heap s ++ [inst])
               (log s ++ [ReqGet (_as_resource_name c) id (include_params include)])
               (snd (respond (ReqGet (_as_resource_name c) id
                                (include_params include)) (srv s)))
  | (Err e, s') =>
      s' = mkState (heap s)
             (log s ++ [ReqGet (_as_resource_name c) id (include_params include)])
             (snd (respond (ReqGet (_as_resource_name c) id
                              (include_params include)) (srv s)))
  end.
Proof.
  unfold _BaseResource_get. cbv zeta.
  unfold bind at 1. unfold get_crud, _CrudFactory_create.
  rewrite known_resource_name. unfold ret at 1. unfold crud_get.
  apply decode_answer_cases.
Qed.

Lemma decode_answer_allocates c q :
  allocates_on_success
    (bind (request q)
       (fun a => bind (lift (from_orm c a)) (fun inst => new inst))).
Proof.
  intros s. pose proof (decode_answer_cases c q s) as Hc.
  destruct (bind (request q) _ s) as [[ref|e] s'].
  - destruct Hc as (-> & a & inst & _ & _ & ->). split; [reflexivity|].
    now exists inst.
  - now subst s'.
Qed.

(** X5. The class methods that build an instance ([get], [self] and
    the three [create]) make one new object, at the next free
    reference, when they succeed, and none when they fail, whether the
    transport or the decoding fails; they change no other object. *)
Theorem builders_allocate_on_success :
  forall (c : Kind) (id : value) (include : list string)
         (username password email first_name last_name name : string)
         (assigned_policies description gid user_ids label : value)
         (planes : option value),
    allocates_on_success (_BaseResource_get c id include) /\
    allocates_on_success User_self /\
    allocates_on_success
      (User_create username password email first_name last_name assigned_policies) /\
    allocates_on_success
      (UserGroup_create name assigned_policies description gid user_ids) /\
    allocates_on_success (AccessKey_create planes label).
Proof.
  intros. repeat split.
  - unfold _BaseResource_get. cbv zeta. intros s.
    unfold bind at 1. unfold get_crud, _CrudFactory_create.
    rewrite known_resource_name. unfold ret at 1.
    apply decode_answer_allocates.
  - intros s. unfold User_self. unfold bind at 1.
    unfold get_crud, _CrudFactory_create. cbn [in_strs existsb String.eqb
      Ascii.eqb Bool.eqb orb _as_resource_name]. unfold ret at 1.
    apply decode_answer_allocates.
  - intros s. unfold User_create. cbv zeta. unfold bind at 1.
    unfold get_crud, _CrudFactory_create. cbn [in_strs existsb String.eqb
      Ascii.eqb Bool.eqb orb _as_resource_name]. unfold ret at 1.
    apply decode_answer_allocates.
  - intros s. unfold UserGroup_create. cbv zeta. unfold bind at 1.
    destruct (truthy user_ids).
    + unfold bind at 1. unfold lift at 1.
      destruct (py_iter user_ids) as [ids|e]; [|reflexivity].
      unfold ret at 1. unfold bind at 1.
      unfold get_crud, _CrudFactory_create. cbn [in_strs existsb String.eqb
        Ascii.eqb Bool.eqb orb _as_resource_name]. unfold ret at 1.
      apply decode_answer_allocates.
    + unfold ret at 1. unfold bind at 1.
      unfold get_crud, _CrudFactory_create. cbn [in_strs existsb String.eqb
        Ascii.eqb Bool.eqb orb _as_resource_name]. unfold ret at 1.
      apply decode_answer_allocates.
  - intros s. unfold AccessKey_create. cbv zeta. unfold bind at 1.
    unfold get_crud, _CrudFactory_create. cbn [in_strs existsb String.eqb
      Ascii.eqb Bool.eqb orb _as_resource_name]. unfold ret at 1.
    apply decode_answer_allocates.
Qed.

(** *** Listing *)

Lemma from_orm_each_run c : forall items insts (s : State),
  res_map (fun item => from_orm c (VDict [("data", item)])) items = Ok insts ->
  from_orm_each c items s
  = (Ok (seq (length (heap s)) (length items)),
     mkState (heap s ++ insts) (log s) (srv s)).
Proof.
  induction items as [|item items IH]; cbn [res_map from_orm_each length seq];
    intros insts s Hmap.
  - injection Hmap as <-. rewrite app_nil_r. now destruct s.
  - unfold res_bind in Hmap.
    destruct (from_orm c (VDict [("data", item)])) as [inst|e] eqn:Hfrom;
      [|discriminate].
    destruct (res_map (fun item => from_orm c (VDict [("data", item)])) items)
      as [insts'|e] eqn:Hrest; [|discriminate].
    injection Hmap as <-.
    unfold bind at 1. unfold lift at 1.
    unfold bind at 1. unfold new at 1.
    unfold bind at 1. rewrite (IH insts' _ eq_refl). cbn [heap log srv].
    unfold ret. rewrite length_app, Nat.add_1_r, <- app_assoc. reflexivity.
Qed.

Lemma from_orm_each_fails c e : forall items (s : State),
  res_map (fun item => from_orm c (VDict [("data", item)])) items = Err e ->
  fst (from_orm_each c items s) = Err e.
Proof.
  induction items as [|item items IH]; cbn [res_map from_orm_each];
    intros s Hmap; [discriminate|].
  unfold res_bind in Hmap. unfold bind at 1. unfold lift at 1.
  destruct (from_orm c (VDict [("data", item)])) as [inst|e0] eqn:Hfrom;
    [|now injection Hmap as ->].
  destruct (res_map (fun item => from_orm c (VDict [("data", item)])) items)
    as [insts'|e1] eqn:Hrest; [discriminate|].
  injection Hmap as ->.
  unfold bind at 1. unfold new at 1. unfold bind at 1.
  specialize (IH (mkState (heap s ++ [inst]) (log s) (srv s)) eq_refl).
  destruct (from_orm_each c items _) as [[refs|e2] s2]; cbn [fst] in *;
    [discriminate | assumption].
Qed.

(** X6. A listing decodes every element of the answer's [data] on its
    own, as the envelope of that element alone: when all decode it
    returns one new object per element, in the order of the answer
    (none for an empty list); when one does not, the listing fails
    with the error of the first that fails. *)
Theorem list_decodes_each :
  forall (c : Kind) (filter_by a : value) (s : State) (srv' : Srv)
         (items : list value),
    respond (ReqList (_as_resource_name c) filter_by) (srv s) = (Ok a, srv') ->
    py_getitem a "data" = Ok (VList items) ->
    (forall insts,
       res_map (fun item => from_orm c (VDict [("data", item)])) items = Ok insts ->
       _BaseResource_list c filter_by s
       = (Ok (seq (length (heap s)) (length items)),
          mkState (heap s ++ insts)
            (log s ++ [ReqList (_as_resource_name c) filter_by]) srv')) /\
    (forall e,
       res_map (fun item => from_orm c (VDict [("data", item)])) items = Err e ->
       fst (_BaseResource_list c filter_by s) = Err e).
Proof.
  intros c filter_by a s srv' items Hresp Hdata.
  assert (Hpre : forall k : list value -> M (list nat),
            bind (get_crud (VStr (_as_resource_name c)))
              (fun crud => bind (crud_list crud filter_by)
                 (fun list_resource =>
                    bind (lift (res_bind (py_getitem list_resource "data") py_iter))
                      k)) s
            = k items (mkState (heap s)
                         (log s ++ [ReqList (_as_resource_name c) filter_by]) srv')).
  { intros k. unfold bind at 1. unfold get_crud, _CrudFactory_create.
    rewrite known_resource_name. unfold ret at 1.
    unfold bind at 1. unfold crud_list, request. rewrite Hresp.
    unfold bind at 1. unfold lift at 1. rewrite Hdata. reflexivity. }
  split.
  - intros insts Hmap. unfold _BaseResource_list. rewrite Hpre.
    now rewrite (from_orm_each_run c items insts _ Hmap).
  - intros e Hmap. unfold _BaseResource_list. rewrite Hpre.
    now apply from_orm_each_fails.
Qed.

(** *** Updating and deleting *)

(** X7. An update that fails, at whatever step, changes no object:
    the caller's instance is overlaid only when the write, the fetch
    and the decoding have all succeeded.  When the transport refuses
    the write, nothing is fetched. *)
Theorem failed_update_keeps_heap :
  forall (s s' : State) (self : nat) (relationships : value) (e : exn),
    _BaseResource_update self relationships s = (Err e, s') ->
    heap s' = heap s /\
    (forall this type id srv1,
       nth_error (heap s) self = Some this ->
       getattr this "type" = Ok (VStr type) ->
       getattr this "id" = Ok id ->
       respond (ReqUpdate type id (VDict (_fields_to_attributes this)) relationships)
               (srv s) = (Err e, srv1) ->
       in_strs type ["user"; "user_group"; "access_key"; "job"] = true ->
       log s' = log s ++
         [ReqUpdate type id (VDict (_fields_to_attributes this)) relationships]).
Proof.
  intros s s' self relationships e Hrun. split.
  - revert Hrun. unfold _BaseResource_update.
    unfold bind at 1. unfold deref at 1.
    destruct (nth_error (heap s) self) as [this|] eqn:Hself;
      [|now intros [= _ <-]].
    unfold bind at 1. unfold lift at 1.
    destruct (getattr this "type") as [type|e0]; [|now intros [= _ <-]].
    unfold bind at 1. unfold get_crud, _CrudFactory_create.
    destruct type as [| | |crud| |]; try (unfold raise; now intros [= _ <-]).
    destruct (in_strs crud _); [|unfold raise; now intros [= _ <-]].
    unfold ret at 1. intros Hrun.
    revert Hrun. unfold bind at 1. unfold lift at 1.
    destruct (getattr this "id") as [id|e0]; [|now intros [= _ <-]].
    unfold bind at 1. unfold crud_update, request.
    destruct (respond _ (srv s)) as [[a1|e1] srv1]; [|now intros [= _ <-]].
    unfold bind at 1.
    pose proof (get_cases (cls this) id []
                  (mkState (heap s) (log s ++
                     [ReqUpdate crud id (VDict (_fields_to_attributes this))
                        relationships]) srv1)) as Hget.
    destruct (_BaseResource_get (cls this) id [] _) as [[ref|e2] s2].
    + destruct Hget as (-> & a2 & inst & _ & _ & ->). cbn [heap log srv].
      unfold bind at 1. unfold deref at 1. cbn [heap]. rewrite nth_error_last.
      unfold bind at 1. unfold deref at 1. cbn [heap].
      rewrite (nth_error_before _ _ _ _ Hself).
      unfold bind at 1. unfold set_dict. cbn [heap log srv].
      rewrite (nth_error_before _ _ _ _ Hself). unfold ret. discriminate.
    + subst s2. now intros [= _ <-].
  - intros this type id srv1 Hself Htype Hid Hresp Hknown.
    revert Hrun. unfold _BaseResource_update.
    step_deref Hself. step_lift Htype.
    step_crud Hknown. step_lift Hid.
    unfold bind at 1. unfold crud_update, request. rewrite Hresp.
    now intros [= <-].
Qed.

(** X14. Deleting sends one delete request, for the [type] and [id]
    the instance holds, with the caller's [ignore_missing] flag as it
    is; the outcome is the transport's, and the caller's object stays
    on the heap as it was, deleted on the server or not. *)
Theorem delete_sends_flag_keeps_instance :
  forall (s : State) (self : nat) (this : Instance) (type : string)
         (id : value) (ignore_missing : bool),
    nth_error (heap s) self = Some this ->
    getattr this "type" = Ok (VStr type) ->
    in_strs type ["user"; "user_group"; "access_key"; "job"] = true ->
    getattr this "id" = Ok id ->
    _BaseResource_delete self ignore_missing s
    = (match fst (respond (ReqDelete type id ignore_missing) (srv s)) with
       | Ok _ => Ok RNone
       | Err e => Err e
       end,
       mkState (heap s) (log s ++ [ReqDelete type id ignore_missing])
         (snd (respond (ReqDelete type id ignore_missing) (srv s)))).
Proof.
  intros s self this type id ignore_missing Hself Htype Hknown Hid.
  unfold _BaseResource_delete.
  step_deref Hself. step_lift Htype.
  step_crud Hknown. step_lift Hid.
  unfold bind at 1. unfold crud_delete, request.
  destruct (respond _ (srv s)) as [[a|e] srv1]; reflexivity.
Qed.

(** *** What the workflows leave alone *)

Lemma list_set_other {A} (l : list A) r x : forall n,
  n <> r -> nth_error (list_set l r x) n = nth_error l n.
Proof.
  revert r. induction l as [|y l IH]; intros r n Hne; [now destruct r|].
  destruct r as [|r], n as [|n]; cbn; try reflexivity; try congruence.
  apply IH. congruence.
Qed.

Lemma list_set_length {A} (l : list A) x : forall r,
  length (list_set l r x) = length l.
Proof.
  induction l as [|y l IH]; intros r; [now destruct r|].
  destruct r; cbn; [reflexivity | now rewrite IH].
Qed.

Lemma keeps_ret n {A} (a : A) : keeps n (ret a).
Proof. intros s _. cbn. split; [reflexivity | lia]. Qed.

Lemma keeps_raise n {A} (e : exn) : keeps n (raise (A := A) e).
Proof. intros s _. cbn. split; [reflexivity | lia]. Qed.

Lemma keeps_lift n {A} (r : Res A) : keeps n (lift r).
Proof. intros s _. cbn. split; [reflexivity | lia]. Qed.

Lemma keeps_request n q : keeps n (request q).
Proof.
  intros s _. unfold request. destruct (respond q (srv s)). cbn.
  split; [reflexivity | lia].
Qed.

Lemma keeps_deref n ref : keeps n (deref ref).
Proof.
  intros s _. unfold deref. destruct (nth_error (heap s) ref); cbn;
    (split; [reflexivity | lia]).
Qed.

Lemma keeps_set_dict n ref d : n <> ref -> keeps n (set_dict ref d).
Proof.
  intros Hne s _. unfold set_dict. destruct (nth_error (heap s) ref); cbn.
  - rewrite list_set_length. split; [now apply list_set_other | lia].
  - split; [reflexivity | lia].
Qed.

Lemma keeps_get_crud n crud_type : keeps n (get_crud crud_type).
Proof.
  unfold get_crud, _CrudFactory_create.
  destruct crud_type as [| | |t| |]; try apply keeps_raise.
  destruct (in_strs t _); [apply keeps_ret | apply keeps_raise].
Qed.

Lemma keeps_bind n {A B} (m : M A) (k : A -> M B) :
  keeps n m -> (forall a, keeps n (k a)) -> keeps n (bind m k).
Proof.
  intros Hm Hk s Hn. unfold bind. destruct (Hm s Hn) as [Hnth Hlen].
  destruct (m s) as [[a|e] s']; cbn [snd] in *.
  - destruct (Hk a s') as [Hnth' Hlen']; [lia|].
    split; [congruence | lia].
  - split; [assumption | lia].
Qed.

(** Sequencing after a coroutine that returns the next free reference. *)
Lemma keeps_bind_fresh n {B} (m : M nat) (k : nat -> M B) :
  keeps n m ->
  (forall s a, fst (m s) = Ok a -> a = length (heap s)) ->
  (forall a, n < a -> keeps n (k a)) ->
  keeps n (bind m k).
Proof.
  intros Hm Hfresh Hk s Hn. unfold bind. destruct (Hm s Hn) as [Hnth Hlen].
  specialize (Hfresh s).
  destruct (m s) as [[a|e] s']; cbn [fst snd] in *.
  - destruct (Hk a) with (s := s') as [Hnth' Hlen'];
      [rewrite (Hfresh a eq_refl); assumption | lia |].
    split; [congruence | lia].
  - split; [assumption | lia].
Qed.

Lemma keeps_get n c id include : keeps n (_BaseResource_get c id include).
Proof.
  intros s Hn. pose proof (get_cases c id include s) as Hc.
  destruct (_BaseResource_get c id include s) as [[ref|e] s']; cbn [snd].
  - destruct Hc as (_ & a & inst & _ & _ & ->). cbn [heap].
    rewrite length_app, nth_error_app1 by assumption. split; [reflexivity | lia].
  - subst s'. cbn [heap]. split; [reflexivity | lia].
Qed.

Lemma get_fresh c id include (s : State) a :
  fst (_BaseResource_get c id include s) = Ok a -> a = length (heap s).
Proof.
  pose proof (get_cases c id include s) as Hc.
  destruct (_BaseResource_get c id include s) as [[ref|e] s']; cbn [fst];
    [|discriminate].
  intros [= <-]. now destruct Hc.
Qed.

Lemma keeps_base_update n self relationships :
  n <> self -> keeps n (_BaseResource_update self relationships).
Proof.
  intros Hne. unfold _BaseResource_update.
  apply keeps_bind; [apply keeps_deref | intros this].
  apply keeps_bind; [apply keeps_lift | intros type].
  apply keeps_bind; [apply keeps_get_crud | intros crud].
  apply keeps_bind; [apply keeps_lift | intros id].
  apply keeps_bind; [apply keeps_request | intros _].
  apply keeps_bind; [apply keeps_get | intros updated_resource].
  apply keeps_bind; [apply keeps_deref | intros updated].
  apply keeps_bind; [apply keeps_deref | intros this'].
  apply keeps_bind; [now apply keeps_set_dict | intros _].
  apply keeps_ret.
Qed.

Lemma keeps_update n self relationships :
  n <> self -> keeps n (update self relationships).
Proof.
  intros Hne. unfold update.
  apply keeps_bind; [apply keeps_deref | intros this].
  destruct (cls this); try now apply keeps_base_update.
  apply keeps_raise.
Qed.

Lemma keeps_set_relationships n user relationships :
  n <> user -> keeps n (set_relationships user relationships).
Proof.
  intros Hne. unfold set_relationships.
  apply keeps_bind; [apply keeps_deref | intros this].
  now apply keeps_set_dict.
Qed.

Lemma keeps_add_to_group self group_id :
  keeps self (User_add_to_group self group_id).
Proof.
  unfold User_add_to_group.
  apply keeps_bind; [apply keeps_deref | intros this].
  apply keeps_bind; [apply keeps_lift | intros id].
  apply keeps_bind_fresh;
    [apply keeps_get | intros s a; apply get_fresh | intros user Huser].
  assert (Hne : self <> user) by lia.
  apply keeps_bind; [apply keeps_deref | intros fetched].
  apply keeps_bind; [apply keeps_lift | intros relationships].
  apply keeps_bind; [apply keeps_lift | intros present].
  apply keeps_bind.
  - destruct present; [apply keeps_ret|].
    apply keeps_bind; [apply keeps_lift | intros relationships'].
    apply keeps_bind; [now apply keeps_set_relationships | intros _].
    apply keeps_ret.
  - intros relationships0.
    apply keeps_bind; [apply keeps_lift | intros ids].
    destruct (negb (existsb (str_eq group_id) ids)); [|apply keeps_ret].
    apply keeps_bind; [apply keeps_lift | intros relationships'].
    apply keeps_bind; [now apply keeps_set_relationships | intros _].
    apply keeps_bind; [now apply keeps_update | intros _].
    apply keeps_ret.
Qed.

Lemma keeps_remove_from_group self group_id :
  keeps self (User_remove_from_group self group_id).
Proof.
  unfold User_remove_from_group.
  apply keeps_bind; [apply keeps_deref | intros this].
  apply keeps_bind; [apply keeps_lift | intros id].
  apply keeps_bind_fresh;
    [apply keeps_get | intros s a; apply get_fresh | intros user Huser].
  assert (Hne : self <> user) by lia.
  apply keeps_bind; [apply keeps_deref | intros fetched].
  apply keeps_bind; [apply keeps_lift | intros relationships].
  apply keeps_bind; [apply keeps_lift | intros present].
  destruct present; [|apply keeps_ret].
  apply keeps_bind; [apply keeps_lift | intros relationships'].
  apply keeps_bind; [now apply keeps_set_relationships | intros _].
  apply keeps_bind; [now apply keeps_update | intros _].
  apply keeps_ret.
Qed.

(** X8. Adding a user to a group and removing it from one never
    change the caller's own object: they work on a copy fetched for
    the purpose, so after the call the caller's [relationships] are
    what they were before it, new membership or not. *)
Theorem membership_keeps_caller :
  forall (s : State) (self : nat) (group_id : string),
    nth_error (heap (snd (User_add_to_group self group_id s))) self
      = nth_error (heap s) self /\
    nth_error (heap (snd (User_remove_from_group self group_id s))) self
      = nth_error (heap s) self.
Proof.
  intros s self group_id.
  destruct (Nat.lt_ge_cases self (length (heap s))) as [Hlt|Hge].
  - split;
      [apply (keeps_add_to_group self group_id s Hlt)
      |apply (keeps_remove_from_group self group_id s Hlt)].
  - apply nth_error_None in Hge.
    unfold User_add_to_group, User_remove_from_group.
    unfold bind at 1. unfold deref at 1. rewrite Hge.
    unfold bind at 1. unfold deref at 1. rewrite Hge.
    split; exact Hge.
Qed.

(** *** Creating *)

(** X9. The members of a new group: a non-empty list of user ids
    becomes one linkage of type [user] per id, in order, under the
    [users] relationship; no ids, or an empty list, sends an empty
    relationships mapping; ids that are true but cannot be iterated
    fail before anything is sent. *)
Theorem user_group_create_members :
  forall (s : State) (name : string) (description gid : value),
    (forall id0 ids,
       log (snd (UserGroup_create name VNone description gid
                   (VList (id0 :: ids)) s))
       = log s ++
         [ReqCreate "user_group"
            (VDict [("name", VStr name); ("description", description);
                    ("gid", gid);
                    ("assigned_policies",
                     VList [TenantManagementRoles_data;
                            TenantManagementRoles_application_admin])])
            (VDict [("users",
                     VDict [("data",
                             VList (map (fun user_id =>
                                           VDict [("id", user_id);
                                                  ("type", VStr "user")])
                                        (id0 :: ids)))])])]) /\
    (forall user_ids,
       truthy user_ids = false ->
       log (snd (UserGroup_create name VNone description gid user_ids s))
       = log s ++
         [ReqCreate "user_group"
            (VDict [("name", VStr name); ("description", description);
                    ("gid", gid);
                    ("assigned_policies",
                     VList [TenantManagementRoles_data;
                            TenantManagementRoles_application_admin])])
            (VDict [])]) /\
    (forall user_ids e,
       truthy user_ids = true -> py_iter user_ids = Err e ->
       UserGroup_create name VNone description gid user_ids s = (Err e, s)).
Proof.
  intros s name description gid. repeat split.
  - intros id0 ids. unfold UserGroup_create. cbv zeta. cbn [truthy negb].
    unfold bind at 1. unfold bind at 1. unfold lift at 1. cbn [py_iter].
    unfold ret at 1. unfold bind at 1.
    unfold get_crud, _CrudFactory_create. cbn [in_strs existsb String.eqb
      Ascii.eqb Bool.eqb orb _as_resource_name]. unfold ret at 1.
    unfold bind, crud_create, request, lift, new.
    destruct (respond _ (srv s)) as [[a|e] srv']; cbn; [|reflexivity].
    destruct (from_orm UserGroup a); reflexivity.
  - intros user_ids Hfalse. unfold UserGroup_create. cbv zeta.
    rewrite Hfalse. cbn [truthy negb].
    unfold bind at 1. unfold ret at 1. unfold bind at 1.
    unfold get_crud, _CrudFactory_create. cbn [in_strs existsb String.eqb
      Ascii.eqb Bool.eqb orb _as_resource_name]. unfold ret at 1.
    unfold bind, crud_create, request, lift, new.
    destruct (respond _ (srv s)) as [[a|e] srv']; cbn; [|reflexivity].
    destruct (from_orm UserGroup a); reflexivity.
  - intros user_ids e Htrue Hiter. unfold UserGroup_create. cbv zeta.
    rewrite Htrue. unfold bind at 1. unfold bind at 1. unfold lift at 1.
    now rewrite Hiter.
Qed.

(** X10. Which policies and planes a create sends: an empty list of
    policies counts as none given, so a [User] and a [UserGroup] get
    their default roles; a non-empty list is sent as it is; the planes
    of an [AccessKey] are sent as given, an empty list included. *)
Theorem create_given_arguments :
  forall (s : State) (username password email first_name last_name name : string)
         (description gid label p0 planes : value) (ps : list value),
    log (snd (User_create username password email first_name last_name
                (VList []) s))
    = log (snd (User_create username password email first_name last_name
                  VNone s)) /\
    log (snd (UserGroup_create name (VList []) description gid VNone s))
    = log (snd (UserGroup_create name VNone description gid VNone s)) /\
    log (snd (User_create username password email first_name last_name
                (VList (p0 :: ps)) s))
    = log s ++
      [ReqCreate "user"
         (VDict [("username", VStr username); ("first_name", VStr first_name);
                 ("last_name", VStr last_name); ("email", VStr email);
                 ("password", VStr password);
                 ("assigned_policies", VList (p0 :: ps))])
         VNone] /\
    log (snd (UserGroup_create name (VList (p0 :: ps)) description gid VNone s))
    = log s ++
      [ReqCreate "user_group"
         (VDict [("name", VStr name); ("description", description);
                 ("gid", gid); ("assigned_policies", VList (p0 :: ps))])
         (VDict [])] /\
    log (snd (AccessKey_create (Some planes) label s))
    = log s ++
      [ReqCreate "access_key" (VDict [("planes", planes); ("label", label)])
         VNone].
Proof.
  intros. split; [|split; [|split; [|split]]].
  - reflexivity.
  - reflexivity.
  - unfold User_create, bind, get_crud, _CrudFactory_create, crud_create,
      request, lift, new, ret. cbn.
    destruct (respond _ (srv s)) as [[a|e] srv']; cbn; [|reflexivity].
    destruct (from_orm User a); reflexivity.
  - unfold UserGroup_create, bind, get_crud, _CrudFactory_create, crud_create,
      request, lift, new, ret. cbn.
    destruct (respond _ (srv s)) as [[a|e] srv']; cbn; [|reflexivity].
    destruct (from_orm UserGroup a); reflexivity.
  - unfold AccessKey_create, bind, get_crud, _CrudFactory_create, crud_create,
      request, lift, new, ret. cbn.
    destruct (respond _ (srv s)) as [[a|e] srv']; cbn; [|reflexivity].
    destruct (from_orm AccessKey a); reflexivity.
Qed.

(** *** The overlay of an update *)

Lemma dict_get_update k items : forall d,
  NoDup (dict_keys items) ->
  dict_get k (dict_update d items)
  = match dict_get k items with
    | Some v => Some v
    | None => dict_get k d
    end.
Proof.
  unfold dict_update.
  induction items as [|[k0 v0] items IH]; cbn [fold_left dict_get fst snd];
    intros d Hnd; [reflexivity|].
  inversion Hnd as [|? ? Hk0 Hnd']; subst.
  rewrite IH by assumption.
  destruct (String.eqb_spec k k0) as [->|Hne].
  - destruct (dict_get k0 items) as [v|] eqn:Hg.
    + exfalso. apply Hk0. apply dict_get_In in Hg.
      change k0 with (fst (k0, v)). now apply in_map.
    + apply dict_get_set_eq.
  - destruct (dict_get k items); [reflexivity|].
    now apply dict_get_set_other.
Qed.

(** X11. What the overlay of an update leaves in the caller's object:
    every declared field holds what the fetched envelope decodes to,
    the server's value or the default, whatever the object held
    before; a key that is no declared field stays as it was. *)
Theorem overlay_takes_decoded_values :
  forall (c : Kind) (env : value) (refreshed : Instance) (d : dict),
    from_orm c env = Ok refreshed ->
    (forall f, In f (__fields__ c) ->
       dict_get (fname f) (dict_update d (__dict__ refreshed))
       = Some (decoded c env f)) /\
    (forall k, in_strs k (map fname (__fields__ c)) = false ->
       dict_get k (dict_update d (__dict__ refreshed)) = dict_get k d).
Proof.
  intros c env refreshed d Hrun.
  destruct (from_orm_ok _ _ _ Hrun) as (_ & Hd & _ & _).
  assert (Hnd : NoDup (dict_keys (__dict__ refreshed))).
  { rewrite Hd, decoded_keys. apply fields_nodup. }
  split.
  - intros f Hin. rewrite dict_get_update by assumption.
    assert (Hg : dict_get (fname f) (__dict__ refreshed) = Some (decoded c env f)).
    { apply dict_get_iff_In; [assumption|]. rewrite Hd.
      apply in_map_iff. now exists f. }
    now rewrite Hg.
  - intros k Hk. rewrite dict_get_update by assumption.
    destruct (dict_get k (__dict__ refreshed)) as [v|] eqn:Hg; [|reflexivity].
    apply dict_get_In in Hg.
    assert (Hin : In k (dict_keys (__dict__ refreshed)))
      by (change k with (fst (k, v)); now apply in_map).
    rewrite Hd, decoded_keys in Hin. apply in_strs_In in Hin. congruence.
Qed.

(** *** Values the validators reject *)

Lemma validate_fields_flags c env : forall fields values fs errors,
  (forall f, In f fields ->
     exists got, _BaseGetter.get env (fname f) Missing = Ok got) ->
  exists values' fs' errors',
    validate_fields c env fields values fs errors = Ok (values', fs', errors') /\
    (errors = true -> errors' = true) /\
    (forall f raw, In f fields ->
       _BaseGetter.get env (fname f) Missing = Ok (Val raw) ->
       field_validate c f raw = None -> errors' = true).
Proof.
  induction fields as [|f0 fields IH]; intros values fs errors Hreads;
    cbn [validate_fields].
  - exists values, fs, errors. repeat split; [auto | intros f raw []].
  - destruct (Hreads f0 (or_introl eq_refl)) as [got Hgot]. rewrite Hgot.
    cbn [res_bind].
    assert (Hreads' : forall f, In f fields ->
              exists got, _BaseGetter.get env (fname f) Missing = Ok got)
      by (intros f Hin; apply Hreads; now right).
    destruct got as [|raw0].
    + destruct (IH (dict_set (fname f0) (get_default c f0) values) fs errors Hreads')
        as (v' & fs' & e' & Hrun & Herr & Hrej).
      exists v', fs', e'. repeat split; try assumption.
      intros f raw [<-|Hin] Hget Hval; [congruence | eauto].
    + destruct (field_validate c f0 raw0) as [v_|] eqn:Hv0.
      * destruct (IH (dict_set (fname f0) v_ values) (fs ++ [fname f0]) errors Hreads')
          as (v' & fs' & e' & Hrun & Herr & Hrej).
        exists v', fs', e'. repeat split; try assumption.
        intros f raw [<-|Hin] Hget Hval; [congruence | eauto].
      * destruct (IH values (fs ++ [fname f0]) true Hreads')
          as (v' & fs' & e' & Hrun & Herr & Hrej).
        exists v', fs', e'. repeat split; try assumption.
        -- intros _. now apply Herr.
        -- intros f raw [<-|Hin] Hget Hval; [now apply Herr | eauto].
Qed.

(** X12. A [null] the server sends under a declared attribute that
    does not allow [None] (a field that is not [Optional] and whose
    default is not [None]) makes the decoding of the whole envelope
    fail with a [ValidationError]; the default is not used in its
    place. *)
Theorem decode_rejects_null :
  forall (c : Kind) (o d attrs : dict) (t i : value) (f : FieldDecl),
    dict_get "data" o = Some (VDict d) ->
    dict_get "type" d = Some t ->
    dict_get "id" d = Some i ->
    dict_get "attributes" d = Some (VDict attrs) ->
    In f (__fields__ c) ->
    allow_none f = false ->
    in_strs (fname f) ["id"; "type"; "relationships"] = false ->
    dict_get (fname f) attrs = Some VNone ->
    from_orm c (VDict o) = Err ValidationError.
Proof.
  intros c o d attrs t i f Hdata Htype Hid Hattrs Hin Hnone Hname Hnull.
  assert (Hreads : forall name,
            exists got, _BaseGetter.get (VDict o) name Missing = Ok got).
  { intros name. unfold _BaseGetter.get.
    cbn [py_getitem res_bind]. rewrite Hdata. cbn [res_bind py_getitem py_dict_get].
    unfold in_strs. cbn [existsb].
    destruct (String.eqb_spec name "id") as [->|_]; cbn [orb].
    { rewrite Hid. cbn. eauto. }
    destruct (String.eqb_spec name "type") as [->|_]; cbn [orb].
    { rewrite Htype. cbn. eauto. }
    destruct (String.eqb name "relationships"); [cbn; eauto|].
    rewrite Hattrs. cbn [res_bind py_contains]. unfold dict_has.
    destruct (dict_get name attrs) as [v|] eqn:Hv; cbn [res_bind py_getitem].
    - rewrite Hv. cbn. eauto.
    - eauto. }
  assert (Hget : _BaseGetter.get (VDict o) (fname f) Missing = Ok (Val VNone)).
  { unfold _BaseGetter.get.
    cbn [py_getitem res_bind]. rewrite Hdata. cbn [res_bind py_getitem py_dict_get].
    unfold in_strs in Hname |- *. cbn [existsb] in Hname |- *.
    destruct (String.eqb (fname f) "id"); [discriminate|].
    destruct (String.eqb (fname f) "type"); [discriminate|].
    destruct (String.eqb (fname f) "relationships"); [discriminate|].
    cbn [orb]. rewrite Hattrs. cbn [res_bind py_contains]. unfold dict_has.
    rewrite Hnull. cbn [res_bind py_getitem]. now rewrite Hnull. }
  destruct (validate_fields_flags c (VDict o) (__fields__ c) [] [] false
              (fun f0 _ => Hreads (fname f0)))
    as (v' & fs' & e' & Hrun & _ & Hrej).
  unfold from_orm, validate_model. rewrite Hrun. cbn [res_bind].
  rewrite (Hrej f VNone Hin Hget); [reflexivity|].
  unfold field_validate. cbn [is_none]. now rewrite Hnone.
Qed.

End Coroutines.

(** *** Membership edits, one after the other *)

Lemma set_linkages_get rels ug l :
  dict_get "user_groups" rels = Some (VDict ug) ->
  dict_get "user_groups" (set_linkages rels l)
  = Some (VDict (dict_set "data" (VList l) ug)).
Proof.
  intros Hug. unfold set_linkages. rewrite Hug. apply dict_get_set_eq.
Qed.

Lemma set_linkages_twice rels ug l1 l2 :
  dict_get "user_groups" rels = Some (VDict ug) ->
  set_linkages (set_linkages rels l1) l2 = set_linkages rels l2.
Proof.
  intros Hug. unfold set_linkages at 1.
  rewrite (set_linkages_get rels ug l1 Hug).
  unfold set_linkages. rewrite Hug. now rewrite dict_set_set, dict_set_set.
Qed.

(** X13. On a relationship that lists the user's groups: removing a
    group right after adding it gives back the relationships as they
    were, and removing a group a second time changes nothing more. *)
Theorem membership_edits_compose :
  forall (rels ug : dict) (l ids : list value) (group_id : string),
    dict_get "user_groups" rels = Some (VDict ug) ->
    dict_get "data" ug = Some (VList l) ->
    res_map (fun group => py_getitem group "id") l = Ok ids ->
    (existsb (str_eq group_id) ids = false ->
     exists added,
       append_group (VDict rels)
         (VDict [("id", VStr group_id); ("type", VStr "user_group")]) = Ok added /\
       without_group added group_id = Ok (VDict rels)) /\
    (exists removed,
       without_group (VDict rels) group_id = Ok removed /\
       without_group removed group_id = Ok removed).
Proof.
  intros rels ug l ids group_id Hug Hdata Hids.
  assert (Hhas : dict_has "user_groups" rels = true)
    by (unfold dict_has; now rewrite Hug).
  assert (Hl : user_group_linkages rels = Some l)
    by (unfold user_group_linkages; now rewrite Hug, Hdata).
  split.
  - intros Hout. eexists. split; [apply (append_group_of rels l _ Hhas Hl)|].
    rewrite (without_group_of _ _
               (l ++ [VDict [("id", VStr group_id); ("type", VStr "user_group")]])
               (ids ++ [VStr group_id]) group_id
               (set_linkages_get rels ug _ Hug) (dict_get_set_eq _ _ _)).
    + rewrite (set_linkages_twice rels ug _ _ Hug), filter_app.
      rewrite (filter_absent l ids group_id Hids Hout).
      cbn. rewrite String.eqb_refl. cbn. rewrite app_nil_r.
      now rewrite (set_linkages_same rels ug l Hug Hdata).
    + apply (res_map_snoc _ _ _ _ _ Hids). reflexivity.
  - eexists. split; [now apply (without_group_of rels ug l ids)|].
    rewrite (without_group_of _ _ _ _ group_id
               (set_linkages_get rels ug _ Hug) (dict_get_set_eq _ _ _)
               (filter_ids l ids group_id Hids)).
    rewrite (set_linkages_twice rels ug _ _ Hug).
    now rewrite (filter_absent _ _ group_id (filter_ids l ids group_id Hids)
                   (existsb_filter_out _ _)).
Qed.

(** *** What a membership update sends *)

Lemma filter_dict_set (P : string * value -> bool) k v : forall d,
  (forall w, P (k, w) = false) ->
  filter P (dict_set k v d) = filter P d.
Proof.
  intros d HP. induction d as [|[k' v'] d IH]; cbn.
  - now rewrite HP.
  - destruct (String.eqb_spec k k') as [->|Hne]; cbn.
    + now rewrite !HP.
    + now rewrite IH.
Qed.

Lemma payload_ignores_relationships inst rel :
  _fields_to_attributes
    (mkInstance (cls inst) (dict_set "relationships" rel (__dict__ inst))
       (__fields_set__ inst))
  = _fields_to_attributes inst.
Proof.
  unfold _fields_to_attributes, dict_, _iter, _calculate_keys.
  cbn [cls __dict__ __fields_set__]. f_equal.
  apply filter_dict_set. intros w. cbn [fst snd].
  apply negb_false_iff, orb_true_iff. left. apply negb_true_iff.
  destruct (in_strs "relationships" _) eqn:E; [|reflexivity].
  apply in_strs_In, filter_In in E. destruct E as [_ E].
  rewrite in_strs_app in E. cbn in E. rewrite orb_true_r in E. discriminate.
Qed.

Section MembershipLog.

Context `{Collaborators}.

Lemma appends_ret {A} (a : A) : appends (ret a).
Proof. intros s. exists []. cbn. now rewrite app_nil_r. Qed.

Lemma appends_raise {A} e : appends (raise (A := A) e).
Proof. intros s. exists []. cbn. now rewrite app_nil_r. Qed.

Lemma appends_lift {A} (r : Res A) : appends (lift r).
Proof. intros s. exists []. cbn. now rewrite app_nil_r. Qed.

Lemma appends_deref ref : appends (deref ref).
Proof.
  intros s. exists []. unfold deref.
  destruct (nth_error (heap s) ref); cbn; now rewrite app_nil_r.
Qed.

Lemma appends_set_dict ref d : appends (set_dict ref d).
Proof.
  intros s. exists []. unfold set_dict.
  destruct (nth_error (heap s) ref); cbn; now rewrite app_nil_r.
Qed.

Lemma appends_request q : appends (request q).
Proof.
  intros s. exists [q]. unfold request. now destruct (respond q (srv s)).
Qed.

Lemma appends_bind {A B} (m : M A) (k : A -> M B) :
  appends m -> (forall a, appends (k a)) -> appends (bind m k).
Proof.
  intros Hm Hk s. unfold bind. destruct (Hm s) as [r1 H1].
  destruct (m s) as [[a|e] s1]; cbn [snd] in *.
  - destruct (Hk a s1) as [r2 H2]. exists (r1 ++ r2).
    now rewrite H2, H1, app_assoc.
  - now exists r1.
Qed.

Lemma appends_get c id include : appends (_BaseResource_get c id include).
Proof.
  intros s. pose proof (get_cases c id include s) as Hc.
  destruct (_BaseResource_get c id include s) as [[ref|e] s']; cbn [snd].
  - destruct Hc as (_ & a & inst & _ & _ & ->). cbn [log]. eauto.
  - subst s'. cbn [log]. eauto.
Qed.

(** The steps of a membership workflow up to the push, when the group
    is to be appended. *)
Lemma add_to_group_pushes (s : State) self this fetched id a srv1 group_id
    rels l ids :
  nth_error (heap s) self = Some this ->
  cls this = User ->
  getattr this "id" = Ok id ->
  respond (ReqGet "user" id [("include", VStr "user_groups")]) (srv s)
    = (Ok a, srv1) ->
  from_orm User a = Ok fetched ->
  getattr fetched "relationships" = Ok (VDict rels) ->
  user_group_linkages rels = Some l ->
  res_map (fun group => py_getitem group "id") l = Ok ids ->
  existsb (str_eq group_id) ids = false ->
  User_add_to_group self group_id s
  = bind
      (update (length (heap s))
         (VDict (set_linkages rels
            (l ++ [VDict [("id", VStr group_id); ("type", VStr "user_group")]]))))
      (fun _ => ret RNone)
      (mkState
         (heap s ++
          [mkInstance (cls fetched)
             (dict_set "relationships"
                (VDict (set_linkages rels
                   (l ++ [VDict [("id", VStr group_id);
                                 ("type", VStr "user_group")]])))
                (__dict__ fetched))
             (__fields_set__ fetched)])
         (log s ++ [ReqGet "user" id [("include", VStr "user_groups")]])
         srv1).
Proof.
  intros Hself Hcls Hid Hresp Hfrom Hrel Hl Hids Hout.
  unfold User_add_to_group.
  rewrite (fetch_with_groups s self this id a srv1 fetched (VDict rels))
    by assumption.
  unfold bind at 1. unfold lift at 1. cbn [py_contains].
  destruct (dict_has "user_groups" rels) eqn:Hhas.
  - unfold bind at 1. unfold ret at 1.
    unfold bind at 1. unfold lift at 1.
    rewrite (group_ids_of rels l ids Hhas Hl Hids), Hout. cbn [negb].
    unfold bind at 1. unfold lift at 1.
    rewrite (append_group_of rels l _ Hhas Hl).
    unfold bind at 1. now rewrite set_relationships_run.
  - pose proof (linkages_absent _ _ Hhas Hl) as ->.
    pose proof (dict_has_false _ _ Hhas) as Hnone.
    unfold bind at 1. unfold bind at 1. unfold lift at 1. cbn [py_setitem].
    unfold bind at 1. rewrite set_relationships_run. unfold ret at 1.
    unfold bind at 1. unfold lift at 1.
    unfold group_ids. cbn [py_getitem res_bind].
    rewrite dict_get_set_eq.
    cbn [res_bind py_getitem dict_get String.eqb Ascii.eqb Bool.eqb py_iter
         res_map existsb negb].
    unfold bind at 1. unfold lift at 1.
    unfold append_group. cbn [py_getitem res_bind].
    rewrite dict_get_set_eq.
    cbn [res_bind py_getitem dict_get String.eqb Ascii.eqb Bool.eqb
         py_append py_setitem dict_set app].
    rewrite dict_set_set.
    unfold bind at 1. rewrite set_relationships_run.
    cbn [cls __dict__ __fields_set__]. rewrite dict_set_set.
    unfold set_linkages. rewrite Hnone. reflexivity.
Qed.

Lemma appends_after_request q {B} (k : value -> M B) (st : State) :
  (forall a, appends (k a)) ->
  exists rest, log (snd (bind (request q) k st)) = log st ++ [q] ++ rest.
Proof.
  intros Hk. unfold bind, request.
  destruct (respond q (srv st)) as [[a|e] srv'].
  - destruct (Hk a (mkState (heap st) (log st ++ [q]) srv')) as [rest Hrest].
    exists rest. rewrite Hrest. cbn [log]. now rewrite <- app_assoc.
  - exists []. reflexivity.
Qed.

Lemma bind_ret_log {A B} (m : M A) (b : B) (st : State) :
  log (snd (bind m (fun _ => ret b) st)) = log (snd (m st)).
Proof. unfold bind, ret. now destruct (m st) as [[a|e] s']. Qed.

(** The first request of an update is the write, with the payload of
    the object as it is then. *)
Lemma update_log_prefix (st : State) self inst type id relationships :
  nth_error (heap st) self = Some inst ->
  cls inst = User ->
  getattr inst "type" = Ok (VStr type) ->
  in_strs type ["user"; "user_group"; "access_key"; "job"] = true ->
  getattr inst "id" = Ok id ->
  exists rest,
    log (snd (update self relationships st))
    = log st ++
      [ReqUpdate type id (VDict (_fields_to_attributes inst)) relationships]
      ++ rest.
Proof.
  intros Hself Hcls Htype Hknown Hid.
  unfold update. unfold bind at 1. unfold deref at 1. rewrite Hself, Hcls.
  unfold _BaseResource_update.
  unfold bind at 1. unfold deref at 1. rewrite Hself.
  unfold bind at 1. unfold lift at 1. rewrite Htype.
  unfold bind at 1. unfold get_crud, _CrudFactory_create. rewrite Hknown.
  unfold ret at 1.
  unfold bind at 1. unfold lift at 1. rewrite Hid.
  unfold crud_update. apply appends_after_request. intros _.
  apply appends_bind; [apply appends_get | intros updated_resource].
  apply appends_bind; [apply appends_deref | intros updated].
  apply appends_bind; [apply appends_deref | intros this'].
  apply appends_bind; [apply appends_set_dict | intros _].
  apply appends_ret.
Qed.

(** X15. The push of a new membership is a full update of the fetched
    user: right after the fetch it sends, with the relationships that
    hold the new linkage, the whole write payload of what was fetched,
    every attribute the server returned for a declared field
    included, not the relationships alone. *)
Theorem membership_update_resends_attributes :
  forall (s : State) (self : nat) (this fetched : Instance) (id id' a : value)
         (srv1 : Srv) (group_id type : string) (rels : dict)
         (l ids : list value),
    nth_error (heap s) self = Some this ->
    cls this = User ->
    getattr this "id" = Ok id ->
    respond (ReqGet "user" id [("include", VStr "user_groups")]) (srv s)
      = (Ok a, srv1) ->
    from_orm User a = Ok fetched ->
    getattr fetched "relationships" = Ok (VDict rels) ->
    user_group_linkages rels = Some l ->
    res_map (fun group => py_getitem group "id") l = Ok ids ->
    existsb (str_eq group_id) ids = false ->
    getattr fetched "type" = Ok (VStr type) ->
    in_strs type ["user"; "user_group"; "access_key"; "job"] = true ->
    getattr fetched "id" = Ok id' ->
    exists rest,
      log (snd (User_add_to_group self group_id s))
      = log s ++
        [ReqGet "user" id [("include", VStr "user_groups")];
         ReqUpdate type id' (VDict (_fields_to_attributes fetched))
           (VDict (set_linkages rels
              (l ++ [VDict [("id", VStr group_id);
                            ("type", VStr "user_group")]])))] ++ rest.
Proof.
  intros s self this fetched id id' a srv1 group_id type rels l ids
    Hself Hcls Hid Hresp Hfrom Hrel Hl Hids Hout Htype Hknown Hfid.
  assert (Hc : cls fetched = User) by (now destruct (from_orm_ok _ _ _ Hfrom)).
  rewrite (add_to_group_pushes s self this fetched id a srv1 group_id rels l ids)
    by assumption.
  rewrite bind_ret_log.
  match goal with
  | |- context [update ?u ?r ?st] =>
      destruct (update_log_prefix st u
                  (mkInstance (cls fetched)
                     (dict_set "relationships" r (__dict__ fetched))
                     (__fields_set__ fetched))
                  type id' r) as [rest Hrest]
  end.
  - cbn [heap]. apply nth_error_last.
  - exact Hc.
  - unfold getattr in *. cbn [__dict__].
    now rewrite dict_get_set_other by discriminate.
  - exact Hknown.
  - unfold getattr in *. cbn [__dict__].
    now rewrite dict_get_set_other by discriminate.
  - exists rest. rewrite Hrest, payload_ignores_relationships.
    cbn [log]. now rewrite <- app_assoc.
Qed.

End MembershipLog.

(** *** Runs of the further properties on the server in memory *)

Lemma decode_missing_members_witness :
  from_orm (H := in_memory) User
    (envelope [("id", VStr "u1"); ("attributes", VDict [])])
  = Err (KeyError "type").
Proof.
  exact (proj1 (proj2 (@decode_missing_members in_memory User))
           [("data", VDict [("id", VStr "u1"); ("attributes", VDict [])])]
           _ eq_refl eq_refl).
Defined.

Lemma decoded_instance_fields_witness :
  exists r,
    from_orm (H := in_memory) User (envelope alice) = Ok r /\
    dict_get "first_name" (__dict__ r) = Some (VStr "") /\
    in_strs "first_name" (__fields_set__ r) = false.
Proof.
  eexists. split; [reflexivity|].
  exact (proj1 (proj2 (proj2 (@decoded_instance_fields in_memory User
                                (envelope alice) _ eq_refl)))
           (plain "first_name")
           (or_intror (or_intror (or_intror (or_intror (or_introl eq_refl)))))
           eq_refl).
Defined.

Lemma payload_characterised_witness :
  dict_get "first_name" (_fields_to_attributes caller) = Some (VStr "Alice").
Proof.
  apply (proj2 (payload_characterised caller "first_name" (VStr "Alice")
                  (nodupb_NoDup (dict_keys (__dict__ caller)) eq_refl))).
  split; [reflexivity|]. split; [reflexivity|]. split; [reflexivity|].
  discriminate.
Defined.

Lemma list_decodes_each_witness :
  fst (_BaseResource_list (H := in_memory) User VNone
         (on_plane [alice; alice_in_g1])) = Ok [1; 2].
Proof.
  rewrite (proj1 (@list_decodes_each in_memory User VNone _
                    (on_plane [alice; alice_in_g1]) _ _ eq_refl eq_refl)
             _ eq_refl).
  reflexivity.
Defined.

(** The server holds no such user: the write is refused and the
    caller's object is as before. *)
Lemma failed_update_keeps_heap_witness :
  fst (_BaseResource_update (H := in_memory) 0 VNone (on_plane []))
  = Err (External "NotFoundError") /\
  heap (snd (_BaseResource_update (H := in_memory) 0 VNone (on_plane [])))
  = [caller].
Proof.
  split; [reflexivity|].
  exact (proj1 (@failed_update_keeps_heap in_memory (on_plane []) _ 0 VNone _
                  eq_refl)).
Defined.

Lemma delete_sends_flag_keeps_instance_witness :
  fst (_BaseResource_delete (H := in_memory) 0 false (on_plane [alice]))
  = Ok RNone /\
  heap (snd (_BaseResource_delete (H := in_memory) 0 false (on_plane [alice])))
  = [caller] /\
  log (snd (_BaseResource_delete (H := in_memory) 0 false (on_plane [alice])))
  = [ReqDelete "user" (VStr "u1") false].
Proof.
  rewrite (@delete_sends_flag_keeps_instance in_memory (on_plane [alice]) 0
             caller "user" (VStr "u1") false eq_refl eq_refl eq_refl eq_refl).
  repeat split.
Defined.

Lemma overlay_takes_decoded_values_witness :
  exists refreshed,
    from_orm (H := in_memory) User (envelope alice) = Ok refreshed /\
    dict_get "first_name" (dict_update (__dict__ caller) (__dict__ refreshed))
    = Some (VStr "").
Proof.
  eexists. split; [reflexivity|].
  exact (proj1 (@overlay_takes_decoded_values in_memory User (envelope alice) _
                  (__dict__ caller) eq_refl)
           (plain "first_name")
           (or_intror (or_intror (or_intror (or_intror (or_introl eq_refl)))))).
Defined.

Lemma decode_rejects_null_witness :
  from_orm (H := in_memory) User
    (envelope [("type", VStr "user"); ("id", VStr "u1");
               ("attributes", VDict [("username", VNone)])])
  = Err ValidationError.
Proof.
  exact (@decode_rejects_null in_memory User
           [("data", VDict [("type", VStr "user"); ("id", VStr "u1");
                            ("attributes", VDict [("username", VNone)])])]
           _ _ _ _ (plain "username") eq_refl eq_refl eq_refl eq_refl
           (or_intror (or_intror (or_intror (or_introl eq_refl))))
           eq_refl eq_refl eq_refl).
Defined.

Lemma membership_edits_compose_witness :
  exists removed,
    without_group
      (VDict [("user_groups",
               VDict [("data",
                       VList [VDict [("id", VStr "g1");
                                     ("type", VStr "user_group")]])])]) "g1"
    = Ok removed /\
    without_group removed "g1" = Ok removed.
Proof.
  exact (proj2 (membership_edits_compose
                  [("user_groups",
                    VDict [("data",
                            VList [VDict [("id", VStr "g1");
                                          ("type", VStr "user_group")]])])]
                  _ _ [VStr "g1"] "g1" eq_refl eq_refl eq_refl)).
Defined.

Lemma membership_update_resends_attributes_witness :
  exists rest,
    log (snd (User_add_to_group (H := in_memory) 0 "g1" (on_plane [alice])))
    = [ReqGet "user" (VStr "u1") [("include", VStr "user_groups")];
       ReqUpdate "user" (VStr "u1")
         (VDict [("username", VStr "alice"); ("email", VStr "a@x.io")])
         (VDict [("user_groups",
                  VDict [("data",
                          VList [VDict [("id", VStr "g1");
                                        ("type", VStr "user_group")]])])])]
      ++ rest.
Proof.
  exact (@membership_update_resends_attributes in_memory (on_plane [alice]) 0
           caller _ (VStr "u1") (VStr "u1") _ _ "g1" "user" [] [] []
           eq_refl eq_refl eq_refl eq_refl eq_refl eq_refl eq_refl eq_refl
           eq_refl eq_refl eq_refl eq_refl).
Defined.
